(** * Dexcom receiver database records: a shallow embedding of
      [database_records.py] and the properties of its decoders.

    The Python module decodes binary records read from the receiver's
    memory pages.  Every record class carries a [struct] format string;
    [Create] slices one record out of a page, unpacks it and checks its
    CRC.  The embedding keeps the shape of the source:

    - a page and a raw record are Python 2 byte strings: [list byte];
    - Python integers are [Z]; little-endian fields are read with
      coqutil's [le_combine];
    - exceptions are values of [exn], carried by the [result] monad;
    - classes are the constructors of [cls]; class attributes and methods
      are functions dispatching on the class, with inheritance written out;
    - the collaborators that live in other modules ([crc16.crc16],
      [util.ReceiverTimeToTime], [datetime.isoformat]) are Section
      variables. *)

From Stdlib Require Import ZArith List String Ascii Bool Lia DecimalString.
From Stdlib Require SpecFloat.
From coqutil Require Import Byte Word.LittleEndianList.
Import ListNotations.

Local Open Scope string_scope.
Local Open Scope list_scope.
Local Open Scope Z_scope.

(** ** Exceptions and the error monad *)

(** A Python exception: the name of its class and its message. *)
Inductive exn : Type :=
| Exn (cls : string) (msg : string).

Definition exn_class (e : exn) : string :=
  match e with Exn c _ => c end.

Inductive result (A : Type) : Type :=
| Ok (a : A)
| Raise (e : exn).

Arguments Ok {A} a.
Arguments Raise {A} e.

Definition bind {A B : Type} (m : result A) (k : A -> result B) : result B :=
  match m with
  | Ok a => k a
  | Raise e => Raise e
  end.

Notation "x <- m ;; k" := (bind m (fun x => k))
  (at level 61, m at next level, right associativity).
Notation "m ;;; k" := (bind m (fun _ => k))
  (at level 61, right associativity).

Definition is_ok {A : Type} (m : result A) : bool :=
  match m with Ok _ => true | Raise _ => false end.

(** [for x in xs: f x], collecting the results in order and stopping at
    the first exception. *)
Fixpoint mapM {A B : Type} (f : A -> result B) (xs : list A) : result (list B) :=
  match xs with
  | [] => Ok []
  | x :: xs' => y <- f x ;; ys <- mapM f xs' ;; Ok (y :: ys)
  end.

(** ** Python sequences *)

Definition len {A : Type} (l : list A) : Z := Z.of_nat (List.length l).

(** How a slice bound is clamped: a negative bound counts from the end. *)
Definition clamp_index (n i : Z) : Z :=
  if i <? 0 then Z.max 0 (i + n) else Z.min i n.

(** [l[lo:hi]]; [None] is an omitted bound. *)
Definition pyslice {A : Type} (l : list A) (lo hi : option Z) : list A :=
  let n := len l in
  let a := match lo with None => 0 | Some i => clamp_index n i end in
  let b := match hi with None => n | Some i => clamp_index n i end in
  firstn (Z.to_nat (b - a)) (skipn (Z.to_nat a) l).

(** [xrange(n)] *)
Definition xrange (n : Z) : list Z :=
  map Z.of_nat (seq 0 (Z.to_nat n)).

Definition IndexError (what : string) : exn :=
  Exn "IndexError" (what ++ " index out of range")%string.

(** [l[i]] on a list or tuple. *)
Definition pyindex {A : Type} (what : string) (l : list A) (i : Z) : result A :=
  let j := if i <? 0 then i + len l else i in
  if j <? 0 then Raise (IndexError what)
  else match nth_error l (Z.to_nat j) with
       | Some x => Ok x
       | None => Raise (IndexError what)
       end.

Definition string_of_Z (z : Z) : string :=
  NilZero.string_of_int (Z.to_int z).

(** ** The [struct] module, as far as the FORMAT strings of the records
    use it *)

Module struct.

(** The format characters that occur in this module's FORMAT strings. *)
Inductive code : Type :=
| c_char                (* c *)
| c_int8                (* b *)
| c_uint8               (* B *)
| c_int16               (* h *)
| c_uint16              (* H *)
| c_uint32              (* I *)
| c_double              (* d *)
| c_str (n : nat).      (* <n>s *)

Definition code_size (c : code) : nat :=
  match c with
  | c_char | c_int8 | c_uint8 => 1
  | c_int16 | c_uint16 => 2
  | c_uint32 => 4
  | c_double => 8
  | c_str n => n
  end.

Definition digit_of (ch : ascii) : option nat :=
  let n := nat_of_ascii ch in
  if ((48 <=? n) && (n <=? 57))%nat then Some (n - 48)%nat else None.

(** A repeat count applies to every code but [s], where it is the
    length of the string. *)
Definition expand (count : option nat) (ch : ascii) : option (list code) :=
  let rep c := Some (repeat c (match count with None => 1%nat | Some n => n end)) in
  match ch with
  | "c"%char => rep c_char
  | "b"%char => rep c_int8
  | "B"%char => rep c_uint8
  | "h"%char => rep c_int16
  | "H"%char => rep c_uint16
  | "I"%char => rep c_uint32
  | "d"%char => rep c_double
  | "s"%char => Some [c_str (match count with None => 1%nat | Some n => n end)]
  | _ => None
  end.

Fixpoint parse_items (s : string) (count : option nat) : option (list code) :=
  match s with
  | EmptyString =>
      match count with None => Some [] | Some _ => None end
  | String ch rest =>
      match digit_of ch with
      | Some d =>
          parse_items rest
            (Some (10 * (match count with None => 0 | Some n => n end) + d)%nat)
      | None =>
          match expand count ch, parse_items rest None with
          | Some cs, Some more => Some (cs ++ more)
          | _, _ => None
          end
      end
  end.

(** The records are stored little-endian, which [<] selects.  The one
    format without a byte-order mark, ["H"] in [Calibration.crc], is
    read in native order; the model takes the host to be little-endian
    (a single [H] has no alignment padding). *)
Definition parse (fmt : string) : option (list code) :=
  match fmt with
  | String "<"%char rest => parse_items rest None
  | _ => parse_items fmt None
  end.

Definition fields_size (fs : list code) : nat :=
  fold_right (fun c n => (code_size c + n)%nat) 0%nat fs.

Definition to_signed (bits : Z) (u : Z) : Z :=
  if u <? 2 ^ (bits - 1) then u else u - 2 ^ bits.

(** What one field decodes to.  A double is kept as its IEEE 754 bit
    pattern: no record accessor does arithmetic on one. *)
Inductive value : Type :=
| VInt (z : Z)
| VStr (s : list byte)
| VFloat (bits : Z).

Definition decode (c : code) (bs : list byte) : value :=
  match c with
  | c_char => VStr bs
  | c_str _ => VStr bs
  | c_int8 => VInt (to_signed 8 (le_combine bs))
  | c_int16 => VInt (to_signed 16 (le_combine bs))
  | c_uint8 | c_uint16 | c_uint32 => VInt (le_combine bs)
  | c_double => VFloat (le_combine bs)
  end.

Fixpoint unpack_fields (fs : list code) (bs : list byte) : list value :=
  match fs with
  | [] => []
  | c :: fs' =>
      decode c (firstn (code_size c) bs)
        :: unpack_fields fs' (skipn (code_size c) bs)
  end.

(** A compiled [struct.Struct]. *)
Record Struct : Type := mkStruct {
  format : string;
  fields : list code
}.

Definition size (st : Struct) : Z := Z.of_nat (fields_size (fields st)).

Definition error (msg : string) : exn := Exn "struct.error" msg.

(** [struct.Struct(fmt)] *)
Definition compile (fmt : string) : result Struct :=
  match parse fmt with
  | Some fs => Ok (mkStruct fmt fs)
  | None => Raise (error "bad char in struct format")
  end.

(** [st.unpack(bs)] *)
Definition unpack (st : Struct) (bs : list byte) : result (list value) :=
  if len bs =? size st then Ok (unpack_fields (fields st) bs)
  else Raise (error ("unpack requires a string argument of length "
                       ++ string_of_Z (size st))%string).

(** [struct.calcsize(fmt)] *)
Definition calcsize (fmt : string) : result Z :=
  st <- compile fmt ;; Ok (size st).

End struct.

Import struct.

(** ** Python operators on decoded fields *)

Definition TypeError (msg : string) : exn := Exn "TypeError" msg.

(** The integer behind a field that the code uses as a number: the
    operand of [&] and [>>], a list index, the argument of [int].  The
    fields so used are integer fields of their layouts; on a string or a
    float field the bit operators and list indexing raise [TypeError]. *)
Definition as_int (v : value) : result Z :=
  match v with
  | VInt z => Ok z
  | _ => Raise (TypeError "an integer is required")
  end.

(** [local_crc != field] for the integer [local_crc]; the field compared
    is the last of its layout, a 16-bit integer, and a string differs
    from every integer. *)
Definition int_ne (a : Z) (v : value) : bool :=
  match v with
  | VInt b => negb (a =? b)
  | _ => true
  end.

(** [field == n] for an integer literal [n]; the field compared is an
    integer field, and a string equals no integer. *)
Definition eq_int (v : value) (n : Z) : bool :=
  match v with
  | VInt z => z =? n
  | _ => false
  end.

(** ** The record classes *)

Definition EGV_TESTNUM_MASK : Z := 0x00ffffff.

Inductive cls : Type :=
| BaseDatabaseRecord
| GenericTimestampedRecord
| GenericXMLRecord
| InsertionRecord
| G5InsertionRecord
| G5UserSettings
| G6UserSettings
| Calibration
| LegacyCalibration
| MeterRecord
| G5MeterRecord
| EventRecord
| SensorRecord
| EGVRecord
| G5EGVRecord
| G6EGVRecord.

(** [cls.__name__] *)
Definition __name__ (c : cls) : string :=
  match c with
  | BaseDatabaseRecord => "BaseDatabaseRecord"
  | GenericTimestampedRecord => "GenericTimestampedRecord"
  | GenericXMLRecord => "GenericXMLRecord"
  | InsertionRecord => "InsertionRecord"
  | G5InsertionRecord => "G5InsertionRecord"
  | G5UserSettings => "G5UserSettings"
  | G6UserSettings => "G6UserSettings"
  | Calibration => "Calibration"
  | LegacyCalibration => "LegacyCalibration"
  | MeterRecord => "MeterRecord"
  | G5MeterRecord => "G5MeterRecord"
  | EventRecord => "EventRecord"
  | SensorRecord => "SensorRecord"
  | EGVRecord => "EGVRecord"
  | G5EGVRecord => "G5EGVRecord"
  | G6EGVRecord => "G6EGVRecord"
  end.

(** The class attribute [FORMAT]; [None] where the class inherits the
    [FORMAT = None] of [BaseDatabaseRecord]. *)
Definition FORMAT (c : cls) : option string :=
  match c with
  | BaseDatabaseRecord | GenericTimestampedRecord => None
  | GenericXMLRecord => Some "<II490sH"
  | InsertionRecord => Some "<3IBH"
  | G5InsertionRecord => Some "<3IBI6sH"
  | G5UserSettings => Some "<4I6sI8HBBIH"
  | G6UserSettings => Some "<4I6sI8HBBHB4s7BH"
  | Calibration | LegacyCalibration => Some "<2Iddd3cdb"
  | MeterRecord => Some "<2IHIH"
  | G5MeterRecord => Some "<2IHBIIH"
  | EventRecord => Some "<2I2B2IH"
  | SensorRecord => Some "<2IIIhH"
  | EGVRecord => Some "<2IHBH"
  | G5EGVRecord => Some "<2IHIBIBBHH"
  | G6EGVRecord => Some "<2IHIBIBBHH"
  end.

Definition LEGACY_SIZE : Z := 148.
Definition REV_2_SIZE : Z := 249.

(** [Calibration] and its subclass [LegacyCalibration] override
    [_ClassSize], [Create], [__init__], [to_dict] and [crc]. *)
Definition is_calibration (c : cls) : bool :=
  match c with
  | Calibration | LegacyCalibration => true
  | _ => false
  end.

(** The concrete classes decoded by the inherited
    [BaseDatabaseRecord.Create]: the fixed-layout records. *)
Definition fixed_layout (c : cls) : bool :=
  match c with
  | BaseDatabaseRecord | GenericTimestampedRecord => false
  | Calibration | LegacyCalibration => false
  | _ => true
  end.

Definition NotImplementedError (msg : string) : exn :=
  Exn "NotImplementedError" msg.

Definition CrcError (msg : string) : exn := Exn "CrcError" msg.

Definition _CheckFormat (c : cls) : result unit :=
  match FORMAT c with
  | None | Some EmptyString =>
      Raise (NotImplementedError
               ("Subclasses of " ++ __name__ c ++ " need to define FORMAT")%string)
  | Some _ => Ok tt
  end.

Definition _ClassFormat (c : cls) : result Struct :=
  _CheckFormat c ;;;
  match FORMAT c with
  | Some fmt => struct.compile fmt
  | None => Raise (TypeError "Struct() argument 1 must be string, not None")
  end.

Definition _ClassSize (c : cls) : result Z :=
  match c with
  | Calibration => Ok REV_2_SIZE
  | LegacyCalibration => Ok LEGACY_SIZE
  | _ => st <- _ClassFormat c ;; Ok (struct.size st)
  end.

(** *** SubCal, the record nested in a Calibration *)

Module SubCal.

Definition FORMAT : string := "<IIIIc".

Record t : Type := mk {
  raw_data : list byte;
  data : list value;
  displayOffset : value
}.

(** [SubCal.__init__(self, raw_data, displayOffset)]: unpacks, and
    checks no CRC. *)
Definition __init__ (raw : list byte) (off : value) : result t :=
  st <- struct.compile FORMAT ;;
  d <- struct.unpack st raw ;;
  Ok (mk raw d off).

End SubCal.

(** *** Instances *)

(** An instance: its class and the attributes [__init__] sets.
    [subcals] is set by [Calibration.__init__] only and is empty for the
    other classes ([page_data], a second name for [raw_data] there, is
    left out). *)
Record record : Type := mkRecord {
  klass : cls;
  raw_data : list byte;
  data : list value;
  subcals : list SubCal.t
}.

(** [self.data[i]] *)
Definition field (r : record) (i : Z) : result value :=
  pyindex "tuple" (data r) i.

Definition AttributeError (c : cls) (name : string) : exn :=
  Exn "AttributeError"
      ("'" ++ __name__ c ++ "' object has no attribute '" ++ name ++ "'")%string.

Definition format_of (c : cls) : result string :=
  match FORMAT c with
  | Some fmt => Ok fmt
  | None => Raise (TypeError "Struct() argument 1 must be string, not None")
  end.

(** ** Decoding *)

Section Decoders.

(** [crc16.crc16] and [util.ReceiverTimeToTime] belong to other
    modules. *)
Variable crc16 : list byte -> Z.
Variable datetime : Type.
Variable ReceiverTimeToTime : Z -> datetime.

(** *** BaseDatabaseRecord *)

(** The bytes [calculate_crc] hands to [crc16]: [self.raw_data[:-2]]. *)
Definition crc_span (raw : list byte) : list byte :=
  pyslice raw None (Some (-2)).

Definition calculate_crc (r : record) : Z :=
  crc16 (crc_span (raw_data r)).

(** The property [crc]: the last unpacked field, except for a
    Calibration, which unpacks the last two raw bytes. *)
Definition crc (r : record) : result value :=
  if is_calibration (klass r) then
    st <- struct.compile "H" ;;
    vs <- struct.unpack st (pyslice (raw_data r) (Some (-2)) None) ;;
    pyindex "tuple" vs 0
  else field r (-1).

Definition check_crc (r : record) : result unit :=
  let local_crc := calculate_crc r in
  stored <- crc r ;;
  if int_ne local_crc stored
  then Raise (CrcError ("Could not parse " ++ __name__ (klass r))%string)
  else Ok tt.

(** [BaseDatabaseRecord.__init__] *)
Definition Base__init__ (c : cls) (data : list value) (raw : list byte)
  : result record :=
  let self := mkRecord c raw data [] in
  check_crc self ;;; Ok self.

(** *** Calibration *)

(** The property [numsub]: [int(self.data[9])]. *)
Definition numsub_of (data : list value) : result Z :=
  v <- pyindex "tuple" data 9 ;; as_int v.

(** The body of the loop of [Calibration.__init__] at index [i]. *)
Definition decode_sub (data : list value) (subdata : list byte)
           (subsize : Z) (i : Z) : result SubCal.t :=
  let offset := i * subsize in
  let raw_sub := pyslice subdata (Some offset) (Some (offset + subsize)) in
  off <- pyindex "tuple" data 1 ;;
  SubCal.__init__ raw_sub off.

(** [Calibration.__init__].  [caldata] and [crcdata] are computed by
    the source and never used. *)
Definition Calibration__init__ (c : cls) (data : list value) (raw : list byte)
  : result record :=
  subsize <- struct.calcsize SubCal.FORMAT ;;
  n <- numsub_of data ;;
  let offset := n * subsize in
  fmt <- format_of c ;;
  calsize <- struct.calcsize fmt ;;
  let caldata := pyslice raw None (Some calsize) in
  let subdata := pyslice raw (Some calsize) (Some (calsize + offset)) in
  let crcdata :=
    pyslice raw (Some (calsize + offset)) (Some (calsize + offset + 2)) in
  n' <- numsub_of data ;;
  subcals <- mapM (decode_sub data subdata subsize) (xrange n') ;;
  let self := mkRecord c raw data subcals in
  check_crc self ;;; Ok self.

(** [cls(data, raw_data)] *)
Definition __init__ (c : cls) (data : list value) (raw : list byte)
  : result record :=
  if is_calibration c then Calibration__init__ c data raw
  else Base__init__ c data raw.

(** [BaseDatabaseRecord.Create] *)
Definition Base_Create (c : cls) (page : list byte) (record_counter : Z)
  : result record :=
  size <- _ClassSize c ;;
  let offset := record_counter * size in
  size' <- _ClassSize c ;;
  let raw := pyslice page (Some offset) (Some (offset + size')) in
  st <- _ClassFormat c ;;
  unpacked_data <- struct.unpack st raw ;;
  __init__ c unpacked_data raw.

(** [Calibration.Create] *)
Definition Calibration_Create (c : cls) (page : list byte) (record_counter : Z)
  : result record :=
  size <- _ClassSize c ;;
  let offset := record_counter * size in
  fmt <- format_of c ;;
  cal_size <- struct.calcsize fmt ;;
  size' <- _ClassSize c ;;
  let raw := pyslice page (Some offset) (Some (offset + size')) in
  let cal_data := pyslice page (Some offset) (Some (offset + cal_size)) in
  st <- _ClassFormat c ;;
  unpacked_data <- struct.unpack st cal_data ;;
  __init__ c unpacked_data raw.

(** [cls.Create(data, record_counter)] *)
Definition Create (c : cls) (page : list byte) (record_counter : Z)
  : result record :=
  if is_calibration c then Calibration_Create c page record_counter
  else Base_Create c page record_counter.

(** *** GenericTimestampedRecord *)

Definition time_of (v : value) : result datetime :=
  secs <- as_int v ;; Ok (ReceiverTimeToTime secs).

Definition system_time (r : record) : result datetime :=
  match klass r with
  | BaseDatabaseRecord => Raise (AttributeError (klass r) "system_time")
  | _ => v <- field r 0 ;; time_of v
  end.

(** [EventRecord] overrides [display_time]. *)
Definition display_time (r : record) : result datetime :=
  match klass r with
  | BaseDatabaseRecord => Raise (AttributeError (klass r) "display_time")
  | EventRecord => v <- field r 4 ;; time_of v
  | _ => v <- field r 1 ;; time_of v
  end.

Definition system_secs (r : record) : result value :=
  match klass r with
  | BaseDatabaseRecord => Raise (AttributeError (klass r) "system_secs")
  | _ => field r 0
  end.

Definition display_secs (r : record) : result value :=
  match klass r with
  | BaseDatabaseRecord => Raise (AttributeError (klass r) "display_secs")
  | _ => field r 1
  end.

(** *** InsertionRecord and G5InsertionRecord *)

Definition is_insertion (c : cls) : bool :=
  match c with
  | InsertionRecord | G5InsertionRecord => true
  | _ => false
  end.

Definition insertion_time (r : record) : result datetime :=
  if is_insertion (klass r) then
    v <- field r 2 ;;
    if eq_int v 0xFFFFFFFF then system_time r
    else time_of v
  else Raise (AttributeError (klass r) "insertion_time").

Definition insertion_secs (r : record) : result value :=
  if is_insertion (klass r) then field r 2
  else Raise (AttributeError (klass r) "insertion_secs").

Definition states : list (option string) :=
  [None; Some "REMOVED"; Some "EXPIRED"; Some "RESIDUAL_DEVIATION";
   Some "COUNTS_DEVIATION"; Some "SECOND_SESSION"; Some "OFF_TIME_LOSS";
   Some "STARTED"; Some "BAD_TRANSMITTER"; Some "MANUFACTURING_MODE";
   Some "UNKNOWN1"; Some "UNKNOWN2"; Some "UNKNOWN3"; Some "UNKNOWN4";
   Some "UNKNOWN5"; Some "UNKNOWN6"; Some "UNKNOWN7"; Some "UNKNOWN8"].

Definition session_state (r : record) : result (option string) :=
  if is_insertion (klass r) then
    v <- field r 3 ;; i <- as_int v ;; pyindex "list" states i
  else Raise (AttributeError (klass r) "session_state").

Definition state_value (r : record) : result value :=
  if is_insertion (klass r) then field r 3
  else Raise (AttributeError (klass r) "state_value").

(** *** EventRecord *)

Definition event_types : list (option string) :=
  [None; Some "CARBS"; Some "INSULIN"; Some "HEALTH"; Some "EXCERCISE";
   Some "MAX_VALUE"].

Definition subtypes : list (string * list (option string)) :=
  [("INSULIN", [None; Some "FAST"; Some "LONG"]);
   ("HEALTH", [None; Some "ILLNESS"; Some "STRESS"; Some "HIGH_SYMPTOMS";
               Some "LOW_SYMTOMS"; Some "CYCLE"; Some "ALCOHOL"]);
   ("EXCERCISE", [None; Some "LIGHT"; Some "MEDIUM"; Some "HEAVY";
                  Some "MAX_VALUE"])].

(** Lookup in a dict with string keys; a [None] key is in no such dict. *)
Fixpoint dict_lookup {V : Type} (d : list (string * V)) (k : option string)
  : option V :=
  match d, k with
  | (k', v) :: d', Some s => if String.eqb k' s then Some v else dict_lookup d' k
  | _, _ => None
  end.

Definition event_type (r : record) : result (option string) :=
  match klass r with
  | EventRecord => v <- field r 2 ;; i <- as_int v ;; pyindex "list" event_types i
  | _ => Raise (AttributeError (klass r) "event_type")
  end.

(** Falls off the end, returning [None], when the category has no
    table of sub-types. *)
Definition event_sub_type (r : record) : result (option string) :=
  match klass r with
  | EventRecord =>
      ty <- event_type r ;;
      match dict_lookup subtypes ty with
      | Some table => v <- field r 3 ;; i <- as_int v ;; pyindex "list" table i
      | None => Ok None
      end
  | _ => Raise (AttributeError (klass r) "event_sub_type")
  end.

Definition int_type (r : record) : result value :=
  match klass r with
  | EventRecord => field r 2
  | _ => Raise (AttributeError (klass r) "int_type")
  end.

Definition int_sub_type (r : record) : result value :=
  match klass r with
  | EventRecord => field r 3
  | _ => Raise (AttributeError (klass r) "int_sub_type")
  end.

(** [meter_secs], defined by [MeterRecord], [G5MeterRecord] and
    [EventRecord]. *)
Definition meter_secs (r : record) : result value :=
  match klass r with
  | MeterRecord => field r 3
  | G5MeterRecord | EventRecord => field r 4
  | _ => Raise (AttributeError (klass r) "meter_secs")
  end.

(** *** Meter and EGV records: the test number *)

Definition xx_testNum (r : record) : result value :=
  match klass r with
  | MeterRecord => Ok (VInt 0)
  | G5MeterRecord => field r 5
  | _ => Raise (AttributeError (klass r) "xx_testNum")
  end.

Definition xx (r : record) : result Z :=
  match klass r with
  | MeterRecord => Ok 0
  | G5MeterRecord => v <- field r 5 ;; n <- as_int v ;; Ok (Z.land n 0xff)
  | _ => Raise (AttributeError (klass r) "xx")
  end.

Definition testNum (r : record) : result Z :=
  match klass r with
  | MeterRecord | EGVRecord => Ok 0
  | G5MeterRecord =>
      v <- field r 5 ;; n <- as_int v ;; Ok (Z.land (Z.shiftr n 8) 0xffffff)
  | G5EGVRecord | G6EGVRecord =>
      v <- field r 5 ;; n <- as_int v ;; Ok (Z.land n EGV_TESTNUM_MASK)
  | _ => Raise (AttributeError (klass r) "testNum")
  end.

Definition full_glucose (r : record) : result value :=
  match klass r with
  | EGVRecord | G5EGVRecord | G6EGVRecord => field r 2
  | _ => Raise (AttributeError (klass r) "full_glucose")
  end.

Definition full_trend (r : record) : result value :=
  match klass r with
  | EGVRecord => field r 3
  | G5EGVRecord | G6EGVRecord => field r 6
  | _ => Raise (AttributeError (klass r) "full_trend")
  end.

Definition realtime (r : record) : result value :=
  match klass r with
  | G5EGVRecord | G6EGVRecord => field r 8
  | _ => Raise (AttributeError (klass r) "realtime")
  end.

End Decoders.

(** ** Reading a record's bytes directly

    The statements below speak of byte positions in a record; these
    readers take them from the raw bytes, independently of [struct]. *)

(** The unsigned little-endian integer held by the [n] bytes at offset
    [off]. *)
Definition uint_at (raw : list byte) (off n : nat) : Z :=
  le_combine (firstn n (skipn off raw)).

(** Every byte but the final two, and the final two. *)
Definition but_last2 (raw : list byte) : list byte :=
  firstn (List.length raw - 2) raw.

Definition last2 (raw : list byte) : list byte :=
  skipn (List.length raw - 2) raw.

(** The layout of a Calibration header, [struct.calcsize] of it, and
    the same for a SubCal. *)
Definition Calibration_fields : list code :=
  [c_uint32; c_uint32; c_double; c_double; c_double;
   c_char; c_char; c_char; c_double; c_int8].

Definition SubCal_fields : list code :=
  [c_uint32; c_uint32; c_uint32; c_uint32; c_char].

Definition HEADER_SIZE : Z := 44.
Definition SUBCAL_SIZE : Z := 17.

(** The sub-record count a Calibration declares: the signed byte at
    offset 43. *)
Definition declared_count (raw : list byte) : Z :=
  to_signed 8 (uint_at raw 43 1).

(** The [j]-th block of 17 bytes after the 44 bytes of the header. *)
Definition sub_slice (raw : list byte) (j : nat) : list byte :=
  firstn 17 (skipn (44 + 17 * j) raw).

(** The SubCal unpacked from the [j]-th block, with display offset
    [off]. *)
Definition sub_record (raw : list byte) (off : value) (j : nat) : SubCal.t :=
  SubCal.mk (sub_slice raw j) (unpack_fields SubCal_fields (sub_slice raw j)) off.

(** The unpack error of a SubCal handed a slice that is not 17 bytes
    long. *)
Definition SubCal_error : exn :=
  struct.error "unpack requires a string argument of length 17".

(** The [i]-th block of [size] bytes of a page. *)
Definition record_slice (page : list byte) (i size : Z) : list byte :=
  firstn (Z.to_nat size) (skipn (Z.to_nat (i * size)) page).

(** ** Export: [to_dict] of a Calibration and of its sub-records *)

(** The Python values an export holds. *)
#[local] Unset Elimination Schemes.
Inductive pyobj : Type :=
| ONone
| OInt (z : Z)
| OFloat (bits : Z)
| OStr (s : list byte)
| OText (s : string)
| OList (l : list pyobj)
| ODict (d : list (string * pyobj)).
#[local] Set Elimination Schemes.

Definition dict : Type := list (string * pyobj).

(** [d[k] = v]: replaces the value of a key already present. *)
Fixpoint dict_set (k : string) (v : pyobj) (d : dict) : dict :=
  match d with
  | [] => [(k, v)]
  | (k', v') :: d' =>
      if String.eqb k' k then (k, v) :: d' else (k', v') :: dict_set k v d'
  end.

Fixpoint dict_get (k : string) (d : dict) : option pyobj :=
  match d with
  | [] => None
  | (k', v) :: d' => if String.eqb k' k then Some v else dict_get k d'
  end.

Definition obj_of_value (v : value) : pyobj :=
  match v with
  | VInt z => OInt z
  | VStr s => OStr s
  | VFloat b => OFloat b
  end.

Definition hex_digit (n : Z) : ascii :=
  ascii_of_nat (Z.to_nat (if n <? 10 then 48 + n else 87 + n)).

(** [binascii.hexlify] *)
Fixpoint hexlify (bs : list byte) : string :=
  match bs with
  | [] => EmptyString
  | b :: bs' =>
      let n := byte.unsigned b in
      String (hex_digit (n / 16)) (String (hex_digit (n mod 16)) (hexlify bs'))
  end.

Definition BASE_FIELDS : list string := ["system_time"; "display_time"].

Definition FIELDS (c : cls) : list string :=
  match c with
  | InsertionRecord | G5InsertionRecord => ["insertion_time"; "session_state"]
  | Calibration | LegacyCalibration =>
      ["slope"; "intercept"; "scale"; "decay"; "numsub"; "raw"]
  | MeterRecord => ["calib_gluc"; "meter_time"]
  | G5MeterRecord => ["calib_gluc"; "record_type"; "meter_time"; "xx_testNum"]
  | EventRecord => ["event_type"; "event_sub_type"; "event_value"]
  | SensorRecord => ["unfiltered"; "filtered"; "rssi"]
  | EGVRecord | G5EGVRecord | G6EGVRecord => ["glucose"; "trend_arrow"]
  | _ => []
  end.

Definition SubCal_FIELDS : list string :=
  ["entered"; "meter"; "sensor"; "applied"].

Section ToDict.

Variable datetime : Type.
Variable ReceiverTimeToTime : Z -> datetime.
Variable isoformat : datetime -> string.

(** What [getattr] returns: a [datetime], which [to_dict] renders with
    [isoformat], or any other value, exported as it is. *)
Inductive attr : Type :=
| ATime (t : datetime)
| AVal (o : pyobj).

Definition export (a : attr) : pyobj :=
  match a with
  | ATime t => OText (isoformat t)
  | AVal o => o
  end.

(** The loop of [GenericTimestampedRecord.to_dict] over the field
    names, for the attribute lookup [getattr] of the instance. *)
Fixpoint to_dict_loop (getattr : string -> result attr) (ks : list string)
         (d : dict) : result dict :=
  match ks with
  | [] => Ok d
  | k :: ks' =>
      a <- getattr k ;;
      to_dict_loop getattr ks' (dict_set k (export a) d)
  end.

Definition as_time (m : result datetime) : result attr :=
  t <- m ;; Ok (ATime t).

Definition as_val (m : result value) : result attr :=
  v <- m ;; Ok (AVal (obj_of_value v)).

Definition as_num (m : result Z) : result attr :=
  z <- m ;; Ok (AVal (OInt z)).

(** *** SubCal *)

Definition SubCal_field (s : SubCal.t) (i : Z) : result value :=
  pyindex "tuple" (SubCal.data s) i.

Definition entered (s : SubCal.t) : result datetime :=
  v <- SubCal_field s 0 ;; time_of datetime ReceiverTimeToTime v.

Definition meter (s : SubCal.t) : result Z :=
  v <- SubCal_field s 1 ;; as_int v.

Definition sensor (s : SubCal.t) : result Z :=
  v <- SubCal_field s 2 ;; as_int v.

Definition applied (s : SubCal.t) : result datetime :=
  v <- SubCal_field s 3 ;; time_of datetime ReceiverTimeToTime v.

Definition SubCal_getattr (s : SubCal.t) (k : string) : result attr :=
  if String.eqb k "entered" then as_time (entered s)
  else if String.eqb k "meter" then as_num (meter s)
  else if String.eqb k "sensor" then as_num (sensor s)
  else if String.eqb k "applied" then as_time (applied s)
  else Raise (Exn "AttributeError"
                  ("'SubCal' object has no attribute '" ++ k ++ "'")%string).

(** [SubCal.to_dict]: inherited, over [BASE_FIELDS = []] and the four
    fields of a SubCal. *)
Definition SubCal_to_dict (s : SubCal.t) : result dict :=
  to_dict_loop (SubCal_getattr s) ([] ++ SubCal_FIELDS) [].

(** *** Calibration *)

Definition raw (r : record) : string := hexlify (raw_data r).
Definition slope (r : record) : result value := field r 2.
Definition intercept (r : record) : result value := field r 3.
Definition scale (r : record) : result value := field r 4.
Definition decay (r : record) : result value := field r 8.
Definition numsub (r : record) : result Z := numsub_of (data r).

(** Attribute lookup on an instance of Calibration or
    LegacyCalibration, for the names its [to_dict] asks for. *)
Definition Calibration_getattr (r : record) (k : string) : result attr :=
  if String.eqb k "system_time"
  then as_time (system_time datetime ReceiverTimeToTime r)
  else if String.eqb k "display_time"
  then as_time (display_time datetime ReceiverTimeToTime r)
  else if String.eqb k "slope" then as_val (slope r)
  else if String.eqb k "intercept" then as_val (intercept r)
  else if String.eqb k "scale" then as_val (scale r)
  else if String.eqb k "decay" then as_val (decay r)
  else if String.eqb k "numsub" then as_num (numsub r)
  else if String.eqb k "raw" then Ok (AVal (OText (raw r)))
  else Raise (AttributeError (klass r) k).

(** [Calibration.to_dict]: the inherited export, then the list of the
    sub-records' exports under ["subrecords"]. *)
Definition Calibration_to_dict (r : record) : result dict :=
  res <- to_dict_loop (Calibration_getattr r)
                      (BASE_FIELDS ++ FIELDS (klass r)) [] ;;
  subs <- mapM SubCal_to_dict (subcals r) ;;
  Ok (dict_set "subrecords" (OList (map ODict subs)) res).

(** The export of a sub-record read off its 17 raw bytes: the two times
    at offsets 0 and 12, the two measurements at offsets 4 and 8. *)
Definition SubCal_export (s : SubCal.t) : dict :=
  let raw := SubCal.raw_data s in
  [("entered", OText (isoformat (ReceiverTimeToTime (uint_at raw 0 4))));
   ("meter", OInt (uint_at raw 4 4));
   ("sensor", OInt (uint_at raw 8 4));
   ("applied", OText (isoformat (ReceiverTimeToTime (uint_at raw 12 4))))].

End ToDict.

(** ** The remaining accessors and the inherited export *)


(** [dump]: every raw byte as a space and two hexadecimal digits. *)
Fixpoint dump_bytes (bs : list byte) : string :=
  match bs with
  | [] => EmptyString
  | b :: bs' =>
      let n := byte.unsigned b in
      String " " (String (hex_digit (n / 16))
                         (String (hex_digit (n mod 16)) (dump_bytes bs')))
  end.

Definition dump (r : record) : string := dump_bytes (raw_data r).

(** A string with its spaces taken out. *)
Fixpoint without_spaces (s : string) : string :=
  match s with
  | EmptyString => EmptyString
  | String ch s' =>
      if Ascii.eqb ch " " then without_spaces s'
      else String ch (without_spaces s')
  end.

(** [s.replace("\x00", "")] *)
Definition strip_nul (s : list byte) : list byte :=
  filter (fun b => negb (Byte.eqb b Byte.x00)) s.

(** [GenericXMLRecord.xmldata] *)
Definition xmldata (r : record) : result (list byte) :=
  match klass r with
  | GenericXMLRecord =>
      v <- field r 2 ;;
      match v with
      | VStr s => Ok (strip_nul s)
      | VInt _ =>
          Raise (Exn "AttributeError" "'int' object has no attribute 'replace'")
      | VFloat _ =>
          Raise (Exn "AttributeError" "'float' object has no attribute 'replace'")
      end
  | _ => Raise (AttributeError (klass r) "xmldata")
  end.

(** [G5InsertionRecord.number] *)
Definition number (r : record) : result value :=
  match klass r with
  | G5InsertionRecord => field r 4
  | _ => Raise (AttributeError (klass r) "number")
  end.

(** [transmitterPaired], of G5InsertionRecord and of the two user
    settings records. *)
Definition transmitterPaired (r : record) : result value :=
  match klass r with
  | G5InsertionRecord => field r 5
  | G5UserSettings | G6UserSettings => field r 4
  | _ => Raise (AttributeError (klass r) "transmitterPaired")
  end.

(** An accessor that G5UserSettings and G6UserSettings both define as
    [self.data[j]]. *)
Definition settings_field (name : string) (j : Z) (r : record) : result value :=
  match klass r with
  | G5UserSettings | G6UserSettings => field r j
  | _ => Raise (AttributeError (klass r) name)
  end.

Definition highAlert : record -> result value := settings_field "highAlert" 6.
Definition highRepeat : record -> result value := settings_field "highRepeat" 7.
Definition lowAlert : record -> result value := settings_field "lowAlert" 8.
Definition lowRepeat : record -> result value := settings_field "lowRepeat" 9.
Definition riseRate : record -> result value := settings_field "riseRate" 10.
Definition fallRate : record -> result value := settings_field "fallRate" 11.
Definition outOfRangeAlert : record -> result value :=
  settings_field "outOfRangeAlert" 12.
Definition soundsType : record -> result value := settings_field "soundsType" 14.

Definition urgentLowSoonRepeat (r : record) : result value :=
  match klass r with
  | G6UserSettings => field r 16
  | _ => Raise (AttributeError (klass r) "urgentLowSoonRepeat")
  end.

Definition sensorCode (r : record) : result value :=
  match klass r with
  | G6UserSettings => field r 18
  | _ => Raise (AttributeError (klass r) "sensorCode")
  end.

(** [calib_gluc] and [record_type], of MeterRecord and G5MeterRecord. *)
Definition calib_gluc (r : record) : result value :=
  match klass r with
  | MeterRecord | G5MeterRecord => field r 2
  | _ => Raise (AttributeError (klass r) "calib_gluc")
  end.

Definition record_type (r : record) : result value :=
  match klass r with
  | MeterRecord => Ok (VInt 1)
  | G5MeterRecord => field r 3
  | _ => Raise (AttributeError (klass r) "record_type")
  end.

(** SensorRecord *)
Definition unfiltered (r : record) : result value :=
  match klass r with
  | SensorRecord => field r 2
  | _ => Raise (AttributeError (klass r) "unfiltered")
  end.

Definition filtered (r : record) : result value :=
  match klass r with
  | SensorRecord => field r 3
  | _ => Raise (AttributeError (klass r) "filtered")
  end.

Definition rssi (r : record) : result value :=
  match klass r with
  | SensorRecord => field r 4
  | _ => Raise (AttributeError (klass r) "rssi")
  end.

Definition obj_of_symbol (o : option string) : pyobj :=
  match o with
  | None => ONone
  | Some s => OText s
  end.

(** *** Floats

    A Python float is an IEEE 754 binary64 number; as for the decoded
    [d] fields, the model keeps its 64-bit pattern.  The arithmetic is
    that of the Standard Library's specification of binary64 (precision
    53, maximal exponent 1024, rounding to nearest even). *)

(** [float(n)] *)
Definition binary64_of_int (n : Z) : SpecFloat.spec_float :=
  SpecFloat.binary_normalize 53 1024 n 0 false.

(** The bit pattern of a binary64 number: sign, biased exponent and
    fraction. *)
Definition binary64_bits (f : SpecFloat.spec_float) : Z :=
  let sign (s : bool) := if s then 2 ^ 63 else 0 in
  match f with
  | SpecFloat.S754_zero s => sign s
  | SpecFloat.S754_infinity s => sign s + 2047 * 2 ^ 52
  | SpecFloat.S754_nan => 2047 * 2 ^ 52 + 2 ^ 51
  | SpecFloat.S754_finite s m e =>
      if Z.pos m <? 2 ^ 52 then sign s + Z.pos m
      else sign s + (e + 1075) * 2 ^ 52 + (Z.pos m - 2 ^ 52)
  end.

(** [n / 100.0] for an integer [n] *)
Definition div_100_0 (n : Z) : pyobj :=
  OFloat (binary64_bits
            (SpecFloat.SFdiv 53 1024 (binary64_of_int n) (binary64_of_int 100))).

Section Accessors.

Variable datetime : Type.
Variable ReceiverTimeToTime : Z -> datetime.
Variable isoformat : datetime -> string.

(** The module [constants] is not part of this file: its three masks
    are integers, and of its two tables only the subscript is used
    ([TREND_ARROW_VALUES[i]], which returns an entry or raises) and the
    lookup of a key ([SPECIAL_GLUCOSE_VALUES], [None] for a key that is
    not in the table). *)
Variable EGV_DISPLAY_ONLY_MASK : Z.
Variable EGV_VALUE_MASK : Z.
Variable EGV_TREND_ARROW_MASK : Z.
Variable TREND_ARROW_VALUES : Z -> result pyobj.
Variable SPECIAL_GLUCOSE_VALUES : Z -> option pyobj.

(** [MeterRecord.meter_time]; G5MeterRecord and EventRecord define
    [meter_secs] only. *)
Definition meter_time (r : record) : result datetime :=
  match klass r with
  | MeterRecord => v <- field r 3 ;; time_of datetime ReceiverTimeToTime v
  | _ => Raise (AttributeError (klass r) "meter_time")
  end.

(** EGVRecord, inherited by G5EGVRecord and G6EGVRecord *)
Definition display_only (r : record) : result bool :=
  v <- full_glucose r ;; n <- as_int v ;;
  Ok (negb (Z.land n EGV_DISPLAY_ONLY_MASK =? 0)).

Definition glucose (r : record) : result Z :=
  v <- full_glucose r ;; n <- as_int v ;; Ok (Z.land n EGV_VALUE_MASK).

Definition glucose_special_meaning (r : record) : result pyobj :=
  g <- glucose r ;;
  match SPECIAL_GLUCOSE_VALUES g with
  | Some meaning => Ok meaning
  | None => Ok ONone
  end.

Definition is_special (r : record) : result bool :=
  m <- glucose_special_meaning r ;;
  Ok (match m with ONone => false | _ => true end).

Definition trend_arrow (r : record) : result pyobj :=
  v <- full_trend r ;; n <- as_int v ;;
  let arrow_value := Z.land n EGV_TREND_ARROW_MASK in
  TREND_ARROW_VALUES arrow_value.

(** [EventRecord.event_value] *)
Definition event_value (r : record) : result pyobj :=
  match klass r with
  | EventRecord =>
      value <- field r 5 ;;
      ty <- event_type r ;;
      match ty with
      | Some "INSULIN" => n <- as_int value ;; Ok (div_100_0 n)
      | _ => Ok (obj_of_value value)
      end
  | _ => Raise (AttributeError (klass r) "event_value")
  end.

Definition as_obj (m : result pyobj) : result (attr datetime) :=
  o <- m ;; Ok (AVal datetime o).

Definition as_symbol (m : result (option string)) : result (attr datetime) :=
  o <- m ;; Ok (AVal datetime (obj_of_symbol o)).

(** [getattr(self, k)] for the names that the [FIELDS] lists hold. *)
Definition getattr (r : record) (k : string) : result (attr datetime) :=
  if is_calibration (klass r)
  then Calibration_getattr datetime ReceiverTimeToTime r k
  else if String.eqb k "system_time"
  then as_time datetime (system_time datetime ReceiverTimeToTime r)
  else if String.eqb k "display_time"
  then as_time datetime (display_time datetime ReceiverTimeToTime r)
  else if String.eqb k "insertion_time"
  then as_time datetime (insertion_time datetime ReceiverTimeToTime r)
  else if String.eqb k "session_state" then as_symbol (session_state r)
  else if String.eqb k "calib_gluc" then as_val datetime (calib_gluc r)
  else if String.eqb k "record_type" then as_val datetime (record_type r)
  else if String.eqb k "meter_time" then as_time datetime (meter_time r)
  else if String.eqb k "xx_testNum" then as_val datetime (xx_testNum r)
  else if String.eqb k "event_type" then as_symbol (event_type r)
  else if String.eqb k "event_sub_type" then as_symbol (event_sub_type r)
  else if String.eqb k "event_value" then as_obj (event_value r)
  else if String.eqb k "unfiltered" then as_val datetime (unfiltered r)
  else if String.eqb k "filtered" then as_val datetime (filtered r)
  else if String.eqb k "rssi" then as_val datetime (rssi r)
  else if String.eqb k "glucose" then as_num datetime (glucose r)
  else if String.eqb k "trend_arrow" then as_obj (trend_arrow r)
  else Raise (AttributeError (klass r) k).

(** [to_dict]: [GenericTimestampedRecord.to_dict], which Calibration
    overrides and BaseDatabaseRecord does not have. *)
Definition to_dict (r : record) : result dict :=
  if is_calibration (klass r)
  then Calibration_to_dict datetime ReceiverTimeToTime isoformat r
  else match klass r with
       | BaseDatabaseRecord => Raise (AttributeError (klass r) "to_dict")
       | _ => to_dict_loop datetime isoformat (getattr r)
                           (BASE_FIELDS ++ FIELDS (klass r)) []
       end.

End Accessors.

(** ** Collaborators to run the decoders with

    The decoders are parametric in the checksum and in the clock.  To
    evaluate them on concrete pages the following stand in: the bitwise
    CRC-16 of polynomial 0x1021 with initial value 0, and times counted
    in seconds from the receiver's base time. *)

Module Sample.

Fixpoint crc_bits (n : nat) (crc : Z) : Z :=
  match n with
  | O => crc
  | S n' =>
      let crc' :=
        if Z.testbit crc 15
        then Z.lxor (Z.shiftl crc 1) 0x1021
        else Z.shiftl crc 1 in
      crc_bits n' (Z.land crc' 0xffff)
  end.

Definition crc_byte (crc : Z) (b : byte) : Z :=
  crc_bits 8 (Z.lxor crc (Z.shiftl (byte.unsigned b) 8)).

Definition crc16 (buf : list byte) : Z := fold_left crc_byte buf 0.

Definition datetime : Type := Z.
Definition ReceiverTimeToTime (secs : Z) : datetime := secs.
Definition isoformat (t : datetime) : string := string_of_Z t.

Definition Create := Create crc16.

(** A page of [n] zero bytes. *)
Definition zeros (n : nat) : list byte := repeat Byte.x00 n.

(** [buf] followed by its checksum, low byte first. *)
Definition sealed (buf : list byte) : list byte :=
  buf ++ le_split 2 (crc16 buf).

(** An InsertionRecord: system time 1, display time 2, insertion time
    [0xFFFFFFFF], session state 7. *)
Definition insertion_page : list byte :=
  sealed [Byte.x01; Byte.x00; Byte.x00; Byte.x00;
          Byte.x02; Byte.x00; Byte.x00; Byte.x00;
          Byte.xff; Byte.xff; Byte.xff; Byte.xff;
          Byte.x07].

(** The same with session state 18, one past the table of states. *)
Definition insertion_page_state18 : list byte :=
  sealed [Byte.x01; Byte.x00; Byte.x00; Byte.x00;
          Byte.x02; Byte.x00; Byte.x00; Byte.x00;
          Byte.xff; Byte.xff; Byte.xff; Byte.xff;
          Byte.x12].

(** An EventRecord of category 2 (INSULIN) and sub-category 1 (FAST),
    entered at time 5 with value 250. *)
Definition event_page : list byte :=
  sealed [Byte.x01; Byte.x00; Byte.x00; Byte.x00;
          Byte.x02; Byte.x00; Byte.x00; Byte.x00;
          Byte.x02; Byte.x01;
          Byte.x05; Byte.x00; Byte.x00; Byte.x00;
          Byte.xfa; Byte.x00; Byte.x00; Byte.x00].

(** A G5MeterRecord whose combined test-number field, the four bytes at
    offset 15, is [0x12FFFFFF]. *)
Definition g5meter_page : list byte :=
  sealed [Byte.x01; Byte.x00; Byte.x00; Byte.x00;
          Byte.x02; Byte.x00; Byte.x00; Byte.x00;
          Byte.x64; Byte.x00;
          Byte.x03;
          Byte.x05; Byte.x00; Byte.x00; Byte.x00;
          Byte.xff; Byte.xff; Byte.xff; Byte.x12].

(** A G5EGVRecord whose test-number field, the four bytes at offset 15,
    is [0x12FFFFFF]. *)
Definition g5egv_page : list byte :=
  sealed [Byte.x01; Byte.x00; Byte.x00; Byte.x00;
          Byte.x02; Byte.x00; Byte.x00; Byte.x00;
          Byte.x64; Byte.x00;
          Byte.x05; Byte.x00; Byte.x00; Byte.x00;
          Byte.x00;
          Byte.xff; Byte.xff; Byte.xff; Byte.x12;
          Byte.x04; Byte.x00;
          Byte.x63; Byte.x00].

(** A revision-2 Calibration of [n] sub-records: the count byte at
    offset 43, everything else zero, and the checksum in the final two
    bytes. *)
Definition calibration_page (n : byte) : list byte :=
  sealed (zeros 43 ++ [n] ++ zeros 203).

(** A legacy Calibration of two sub-records, the second entered at
    time 9. *)
Definition legacy_page : list byte :=
  sealed (zeros 43 ++ [Byte.x02] ++ zeros 17 ++ [Byte.x09] ++ zeros 84).

(** 249 bytes, count 0, all zero but the byte at offset 100: the bytes
    after the header are not those of a sealed record. *)
Definition stray_page : list byte :=
  zeros 100 ++ [Byte.x01] ++ zeros 148.

(** Values for the constants of the module [constants]. *)
Definition EGV_VALUE_MASK : Z := 1023.
Definition EGV_TREND_ARROW_MASK : Z := 15.

Definition TREND_ARROW_VALUES (i : Z) : result pyobj :=
  v <- pyindex "list"
         [None; Some "DOUBLE_UP"; Some "SINGLE_UP"; Some "45_UP"; Some "FLAT";
          Some "45_DOWN"; Some "SINGLE_DOWN"; Some "DOUBLE_DOWN";
          Some "NOT_COMPUTABLE"; Some "OUT_OF_RANGE"] i ;;
  Ok (obj_of_symbol v).

Definition to_dict : record -> result dict :=
  to_dict datetime ReceiverTimeToTime isoformat EGV_VALUE_MASK
          EGV_TREND_ARROW_MASK TREND_ARROW_VALUES.

(** A GenericXMLRecord whose text is [<a>] followed by NUL bytes. *)
Definition xml_page : list byte :=
  sealed (zeros 8 ++ [Byte.x3c; Byte.x61; Byte.x3e] ++ zeros 487).

(** User settings of both generations, all zero but the high alert,
    200, at offset 26. *)
Definition g5settings_page : list byte :=
  sealed (zeros 26 ++ [Byte.xc8] ++ zeros 21).

Definition g6settings_page : list byte :=
  sealed (zeros 26 ++ [Byte.xc8] ++ zeros 31).

(** A MeterRecord: glucose 100, meter time 5. *)
Definition meter_page : list byte :=
  sealed [Byte.x01; Byte.x00; Byte.x00; Byte.x00;
          Byte.x02; Byte.x00; Byte.x00; Byte.x00;
          Byte.x64; Byte.x00;
          Byte.x05; Byte.x00; Byte.x00; Byte.x00].

(** A SensorRecord of signal strength -80. *)
Definition sensor_page : list byte :=
  sealed [Byte.x01; Byte.x00; Byte.x00; Byte.x00;
          Byte.x02; Byte.x00; Byte.x00; Byte.x00;
          Byte.x10; Byte.x27; Byte.x00; Byte.x00;
          Byte.x20; Byte.x4e; Byte.x00; Byte.x00;
          Byte.xb0; Byte.xff].

(** An EGVRecord: raw glucose [0x8064], the display-only bit over the
    value 100, and trend 4. *)
Definition egv_page : list byte :=
  sealed [Byte.x01; Byte.x00; Byte.x00; Byte.x00;
          Byte.x02; Byte.x00; Byte.x00; Byte.x00;
          Byte.x64; Byte.x80;
          Byte.x04].

(** A Calibration header of count 0 and its checksum, 46 bytes. *)
Definition header_only_page : list byte := sealed (zeros 44).

End Sample.

(** * Properties *)

(** ** Slices *)

Lemma len_nonneg {A : Type} (l : list A) : 0 <= len l.
Proof. unfold len. lia. Qed.

Lemma pyslice_within {A : Type} (l : list A) (a b : Z) :
  0 <= a <= b -> b <= len l ->
  pyslice l (Some a) (Some b)
  = firstn (Z.to_nat (b - a)) (skipn (Z.to_nat a) l).
Proof.
  intros Hab Hb. unfold pyslice, clamp_index.
  destruct (Z.ltb_spec a 0); [lia|].
  destruct (Z.ltb_spec b 0); [lia|].
  rewrite !Z.min_l by lia. reflexivity.
Qed.

Lemma pyslice_within_len {A : Type} (l : list A) (a b : Z) :
  0 <= a <= b -> b <= len l ->
  len (pyslice l (Some a) (Some b)) = b - a.
Proof.
  intros Hab Hb. rewrite pyslice_within by assumption.
  unfold len in *. rewrite length_firstn, length_skipn. lia.
Qed.

(** [l[:-2]] and [l[-2:]] of a list of at least two elements. *)
Lemma pyslice_but_last2 {A : Type} (l : list A) :
  2 <= len l ->
  pyslice l None (Some (-2)) = firstn (List.length l - 2) l.
Proof.
  intros H. unfold pyslice, clamp_index.
  change (-2 <? 0) with true. cbv iota.
  rewrite Z.max_r by lia. rewrite Z.sub_0_r. cbn [Z.to_nat skipn].
  f_equal. unfold len in *. lia.
Qed.

Lemma pyslice_last2 {A : Type} (l : list A) :
  2 <= len l ->
  pyslice l (Some (-2)) None = skipn (List.length l - 2) l.
Proof.
  intros H. unfold pyslice, clamp_index.
  change (-2 <? 0) with true. cbv iota.
  rewrite Z.max_r by lia.
  replace (Z.to_nat (-2 + len l)) with (List.length l - 2)%nat
    by (unfold len in *; lia).
  apply firstn_all2. unfold len in *. rewrite length_skipn. lia.
Qed.

Lemma pyslice_last2_len {A : Type} (l : list A) :
  2 <= len l -> len (pyslice l (Some (-2)) None) = 2.
Proof.
  intros H. rewrite pyslice_last2 by assumption.
  unfold len in *. rewrite length_skipn. lia.
Qed.

(** A slice of a slice, both within bounds, is a slice of the list. *)
Lemma pyslice_pyslice {A : Type} (l : list A) (a b c d : Z) :
  0 <= a <= b -> b <= len l -> 0 <= c <= d -> d <= b - a ->
  pyslice (pyslice l (Some a) (Some b)) (Some c) (Some d)
  = pyslice l (Some (a + c)) (Some (a + d)).
Proof.
  intros Hab Hb Hcd Hd.
  rewrite (pyslice_within (pyslice _ _ _))
    by (rewrite ?pyslice_within_len; lia).
  rewrite !pyslice_within by lia.
  rewrite skipn_firstn_comm, firstn_firstn, skipn_skipn.
  f_equal; [lia | f_equal; lia].
Qed.

(** ** Unpacking *)

Lemma fields_size_app (fs gs : list code) :
  fields_size (fs ++ gs) = (fields_size fs + fields_size gs)%nat.
Proof.
  induction fs as [|c fs IH]; cbn [fields_size fold_right app] in *; [reflexivity|].
  fold (fields_size (fs ++ gs)) (fields_size fs). lia.
Qed.

(** The [i]-th unpacked value is decoded from the bytes that follow the
    first [i] fields. *)
Lemma unpack_fields_nth (fs : list code) (bs : list byte) (i : nat) (c : code) :
  nth_error fs i = Some c ->
  nth_error (unpack_fields fs bs) i
  = Some (decode c (firstn (code_size c)
                           (skipn (fields_size (firstn i fs)) bs))).
Proof.
  revert bs i. induction fs as [|c0 fs IH]; intros bs i H.
  - destruct i; discriminate.
  - destruct i as [|i]; cbn [nth_error] in *.
    + injection H as ->. reflexivity.
    + cbn [unpack_fields nth_error]. rewrite (IH _ _ H).
      cbn [firstn fields_size fold_right]. fold (fields_size (firstn i fs)).
      rewrite skipn_skipn. do 4 f_equal. lia.
Qed.

(** [data[i]] for an index inside the tuple. *)
Lemma pyindex_nth {A : Type} (what : string) (l : list A) (i : nat) (x : A) :
  nth_error l i = Some x -> pyindex what l (Z.of_nat i) = Ok x.
Proof.
  intros H. unfold pyindex.
  destruct (Z.ltb_spec (Z.of_nat i) 0); [lia|].
  destruct (Z.ltb_spec (Z.of_nat i) 0); [lia|].
  now rewrite Nat2Z.id, H.
Qed.

(** [data[j]] of a tuple unpacked from [bs]: decoded from the bytes at
    the offset of the fields before it. *)
Lemma unpacked_at (fs : list code) (bs : list byte) (j : Z) (c : code) (off : nat) :
  0 <= j ->
  nth_error fs (Z.to_nat j) = Some c ->
  fields_size (firstn (Z.to_nat j) fs) = off ->
  pyindex "tuple" (unpack_fields fs bs) j
  = Ok (decode c (firstn (code_size c) (skipn off bs))).
Proof.
  intros Hj Hn <-. rewrite <- (Z2Nat.id j) at 1 by assumption.
  apply pyindex_nth, unpack_fields_nth, Hn.
Qed.

(** [data[-1]] of a non-empty tuple. *)
Lemma pyindex_last {A : Type} (what : string) (l : list A) (x : A) :
  pyindex what (l ++ [x]) (-1) = Ok x.
Proof.
  unfold pyindex, len. change (-1 <? 0) with true. cbv iota.
  rewrite length_app. cbn [List.length].
  destruct (Z.ltb_spec (-1 + Z.of_nat (List.length l + 1)) 0); [lia|].
  replace (Z.to_nat (-1 + Z.of_nat (List.length l + 1))) with (List.length l) by lia.
  rewrite nth_error_app2 by lia. now rewrite Nat.sub_diag.
Qed.

(** An index past the end of a list raises [IndexError]. *)
Lemma pyindex_out_of_range {A : Type} (what : string) (l : list A) (i : Z) :
  len l <= i -> pyindex what l i = Raise (IndexError what).
Proof.
  intros H. unfold pyindex. pose proof (len_nonneg l).
  destruct (Z.ltb_spec i 0); [lia|].
  destruct (Z.ltb_spec i 0); [lia|].
  destruct (nth_error l (Z.to_nat i)) eqn:E; [|reflexivity].
  assert (nth_error l (Z.to_nat i) <> None) as E' by congruence.
  apply nth_error_Some in E'. unfold len in *. lia.
Qed.

Lemma unpack_fields_app (fs gs : list code) (bs : list byte) :
  unpack_fields (fs ++ gs) bs
  = unpack_fields fs bs ++ unpack_fields gs (skipn (fields_size fs) bs).
Proof.
  revert bs. induction fs as [|c fs IH]; intros bs; [reflexivity|].
  cbn [app unpack_fields fields_size fold_right]. fold (fields_size fs).
  rewrite IH, skipn_skipn. do 4 f_equal. lia.
Qed.

(** When the layout ends in [H], the last unpacked value is the last two
    bytes read as a little-endian integer. *)
Lemma unpack_last_H (fs : list code) (bs : list byte) :
  List.length bs = (fields_size fs + 2)%nat ->
  pyindex "tuple" (unpack_fields (fs ++ [c_uint16]) bs) (-1)
  = Ok (VInt (le_combine (skipn (List.length bs - 2) bs))).
Proof.
  intros H. rewrite unpack_fields_app. cbn [unpack_fields decode code_size].
  rewrite pyindex_last. do 3 f_equal.
  replace (List.length bs - 2)%nat with (fields_size fs) by lia.
  apply firstn_all2. rewrite length_skipn. lia.
Qed.

(** ** The layouts of the classes *)

(** Every fixed-layout class has a format that compiles and whose last
    field is a 16-bit unsigned integer: the stored checksum. *)
Lemma fixed_layout_format (c : cls) :
  fixed_layout c = true ->
  exists fmt fs,
    FORMAT c = Some fmt
    /\ _ClassFormat c = Ok (mkStruct fmt (fs ++ [c_uint16]))
    /\ _ClassSize c = Ok (Z.of_nat (fields_size fs + 2)).
Proof.
  destruct c; try discriminate; intros _;
    match goal with
    | |- exists fmt fs, FORMAT ?k = _ /\ _ =>
        let f := eval vm_compute in (FORMAT k) in
        match f with
        | Some ?fmt =>
            let p := eval vm_compute in (struct.parse fmt) in
            match p with
            | Some ?fs => exists fmt, (removelast fs); repeat split; reflexivity
            end
        end
    end.
Qed.

Lemma fixed_layout_not_calibration (c : cls) :
  fixed_layout c = true -> is_calibration c = false.
Proof. destruct c; (discriminate || reflexivity). Qed.

Section FixedLayout.

Variable crc16 : list byte -> Z.

(** What [Create] computes for a fixed-layout class on a page that
    holds the whole record. *)
Lemma Create_fixed_layout_eq (c : cls) (fmt : string) (fs : list code)
      (page : list byte) (i : Z) :
  fixed_layout c = true ->
  _ClassFormat c = Ok (mkStruct fmt (fs ++ [c_uint16])) ->
  _ClassSize c = Ok (Z.of_nat (fields_size fs + 2)) ->
  0 <= i ->
  (i + 1) * Z.of_nat (fields_size fs + 2) <= len page ->
  let size := Z.of_nat (fields_size fs + 2) in
  let raw := pyslice page (Some (i * size)) (Some (i * size + size)) in
  Create crc16 c page i
  = if crc16 (firstn (List.length raw - 2) raw)
       =? le_combine (skipn (List.length raw - 2) raw)
    then Ok (mkRecord c raw (unpack_fields (fs ++ [c_uint16]) raw) [])
    else Raise (CrcError ("Could not parse " ++ __name__ c)%string).
Proof.
  intros Hfix Hst Hsz Hi Hpage size raw.
  assert (Hlen : len raw = size).
  { unfold raw. rewrite pyslice_within_len; nia. }
  unfold Create. rewrite (fixed_layout_not_calibration c Hfix).
  unfold Base_Create. rewrite Hsz, Hst. cbn [bind]. fold size. fold raw.
  unfold struct.unpack, struct.size; cbn [fields].
  rewrite fields_size_app. cbn [fields_size fold_right code_size].
  replace (Z.of_nat (fold_right (fun c n => (code_size c + n)%nat) 0%nat fs + (2 + 0)))
    with size by (unfold size, fields_size; lia).
  rewrite Hlen, Z.eqb_refl. cbn [bind].
  unfold __init__. rewrite (fixed_layout_not_calibration c Hfix).
  unfold Base__init__, check_crc, crc, calculate_crc, field, crc_span.
  cbn [klass raw_data data]. rewrite (fixed_layout_not_calibration c Hfix).
  rewrite unpack_last_H by (unfold len, size in Hlen; lia).
  cbn [bind int_ne].
  rewrite pyslice_but_last2 by (unfold size in Hlen; lia).
  destruct (Z.eqb_spec (crc16 (firstn (List.length raw - 2) raw))
                       (le_combine (skipn (List.length raw - 2) raw)));
    reflexivity.
Qed.

End FixedLayout.

Lemma record_slice_pyslice (page : list byte) (i size : Z) :
  0 <= i -> 0 <= size -> (i + 1) * size <= len page ->
  pyslice page (Some (i * size)) (Some (i * size + size))
  = record_slice page i size.
Proof.
  intros Hi Hs Hp. rewrite pyslice_within by nia.
  unfold record_slice. do 2 f_equal. lia.
Qed.

(** ** Fixed-layout records: [Create] and the checksum *)

(** C4.  For every fixed-layout record class, on a page that holds at
    least [(i + 1) * size] bytes, [Create] returns a record exactly when
    the checksum of every byte of the record's slice but the final two
    equals the final two bytes read as a little-endian 16-bit integer;
    the record returned holds that slice; on a mismatch [Create] raises
    [CrcError] with the name of the class and returns nothing. *)
Theorem Create_fixed_layout_crc
        (crc16 : list byte -> Z) (c : cls) (page : list byte) (i size : Z) :
  fixed_layout c = true ->
  _ClassSize c = Ok size ->
  0 <= i ->
  (i + 1) * size <= len page ->
  let raw := record_slice page i size in
  let computed := crc16 (but_last2 raw) in
  let stored := le_combine (last2 raw) in
  ((exists r, Create crc16 c page i = Ok r) <-> computed = stored)
  /\ (forall r, Create crc16 c page i = Ok r ->
                klass r = c /\ raw_data r = raw)
  /\ (computed <> stored ->
      Create crc16 c page i
      = Raise (CrcError ("Could not parse " ++ __name__ c)%string)).
Proof.
  intros Hfix Hsize Hi Hpage raw computed stored.
  destruct (fixed_layout_format c Hfix) as (fmt & fs & _ & Hst & Hsz).
  assert (size = Z.of_nat (fields_size fs + 2)) as Esize by congruence.
  pose proof (Create_fixed_layout_eq crc16 c fmt fs page i Hfix Hst Hsz Hi) as E.
  rewrite <- Esize in E. specialize (E Hpage). cbv zeta in E.
  rewrite record_slice_pyslice in E by lia.
  fold raw in E. fold (but_last2 raw) (last2 raw) in E.
  fold computed stored in E. rewrite E.
  destruct (Z.eqb_spec computed stored) as [Heq|Hne].
  - split; [|split].
    + split; [intros _; exact Heq | intros _; eexists; reflexivity].
    + intros r Hr. injection Hr as <-. split; reflexivity.
    + intros Hne. contradiction.
  - split; [|split].
    + split; [intros [r Hr]; discriminate | intros Heq; contradiction].
    + intros r Hr. discriminate.
    + intros _. reflexivity.
Qed.

Lemma Create_fixed_layout_crc_witness :
  exists r, Sample.Create InsertionRecord Sample.insertion_page 0 = Ok r.
Proof.
  pose proof (Create_fixed_layout_crc Sample.crc16 InsertionRecord
                Sample.insertion_page 0 15 eq_refl eq_refl
                ltac:(lia) ltac:(vm_compute; discriminate)) as [H _].
  apply H. vm_compute. reflexivity.
Defined.

(** ** What a decoded record holds *)

Lemma _ClassSize_not_calibration (c : cls) :
  is_calibration c = false ->
  _ClassSize c = (st <- _ClassFormat c ;; Ok (struct.size st)).
Proof. destruct c; (discriminate || reflexivity). Qed.

Section Decoded.

Variable crc16 : list byte -> Z.

(** A record returned by the inherited [Create] holds a slice of the
    page of the size of its layout and the fields unpacked from it. *)
Lemma Create_fixed_layout_inv (c : cls) (st : Struct) (page : list byte)
      (i : Z) (r : record) :
  fixed_layout c = true ->
  _ClassFormat c = Ok st ->
  Create crc16 c page i = Ok r ->
  klass r = c
  /\ raw_data r
     = pyslice page (Some (i * struct.size st))
               (Some (i * struct.size st + struct.size st))
  /\ len (raw_data r) = struct.size st
  /\ data r = unpack_fields (fields st) (raw_data r)
  /\ subcals r = [].
Proof.
  intros Hfix Hst. unfold Create.
  rewrite (fixed_layout_not_calibration c Hfix). unfold Base_Create.
  rewrite (_ClassSize_not_calibration c (fixed_layout_not_calibration c Hfix)).
  rewrite Hst. cbn [bind]. unfold struct.unpack.
  set (raw := pyslice page _ _).
  destruct (Z.eqb_spec (len raw) (struct.size st)) as [Hlen|]; [|discriminate].
  cbn [bind]. unfold __init__.
  rewrite (fixed_layout_not_calibration c Hfix). unfold Base__init__.
  destruct (check_crc _ _); [|discriminate]. cbn [bind].
  intros H. injection H as <-. cbn [klass raw_data data subcals]. auto.
Qed.

(** A field of a record whose tuple was unpacked from [bs]: read at
    the offset of the fields before it. *)
Lemma field_at (r : record) (fs : list code) (bs : list byte) (j : Z)
      (c : code) (off : nat) :
  data r = unpack_fields fs bs ->
  0 <= j ->
  nth_error fs (Z.to_nat j) = Some c ->
  fields_size (firstn (Z.to_nat j) fs) = off ->
  field r j = Ok (decode c (firstn (code_size c) (skipn off bs))).
Proof.
  intros Hd Hj Hn Hoff. unfold field. rewrite Hd.
  now apply unpacked_at.
Qed.

End Decoded.

(** From [HC : Create crc16 c page i = Ok r] for a concrete fixed-layout
    class [c]: the class of [r] and its tuple, unpacked from its raw
    bytes by the fields of the layout of [c]. *)
Ltac decoded HC Hk Hlen Hd :=
  match type of HC with
  | Create ?crc ?c ?page ?i = Ok ?r =>
      let st := eval vm_compute in (_ClassFormat c) in
      match st with
      | Ok ?s =>
          destruct (Create_fixed_layout_inv crc c s page i r
                      eq_refl eq_refl HC) as (Hk & _ & Hlen & Hd & _);
          cbn [fields] in Hd
      end
  end.

(** Reads field [j], of code [c] at byte offset [off], in a record whose
    tuple is given by [Hd]. *)
Ltac read_field Hd j c off :=
  match type of Hd with
  | data ?r = unpack_fields ?fs ?bs =>
      rewrite (field_at r fs bs j c off Hd ltac:(lia) eq_refl eq_refl);
      cbn [decode code_size bind]
  end.

(** ** InsertionRecord *)

Section Insertion.

Variable crc16 : list byte -> Z.
Variable datetime : Type.
Variable ReceiverTimeToTime : Z -> datetime.

(** C6.  In every decoded InsertionRecord (or G5InsertionRecord) whose
    raw insertion-time field, the four bytes at offset 8, is
    [0xFFFFFFFF], [insertion_time] is [system_time], the conversion of
    the system seconds; for every other raw value [insertion_time] is
    the conversion of that value. *)
Theorem insertion_time_sentinel (c : cls) (page : list byte) (i : Z) (r : record) :
  is_insertion c = true ->
  Create crc16 c page i = Ok r ->
  let raw_insertion := uint_at (raw_data r) 8 4 in
  (raw_insertion = 0xFFFFFFFF ->
   insertion_time datetime ReceiverTimeToTime r = system_time datetime ReceiverTimeToTime r
   /\ system_time datetime ReceiverTimeToTime r = Ok (ReceiverTimeToTime (uint_at (raw_data r) 0 4)))
  /\ (raw_insertion <> 0xFFFFFFFF ->
      insertion_time datetime ReceiverTimeToTime r = Ok (ReceiverTimeToTime raw_insertion)).
Proof.
  intros Hc HC raw_insertion.
  destruct c; try discriminate Hc; decoded HC Hk Hlen Hd;
    unfold insertion_time, system_time; rewrite Hk; cbn [is_insertion];
    read_field Hd 2 c_uint32 8%nat; read_field Hd 0 c_uint32 0%nat;
    fold (uint_at (raw_data r) 8 4) (uint_at (raw_data r) 0 4);
    fold raw_insertion; cbn [eq_int time_of as_int bind];
    (destruct (Z.eqb_spec raw_insertion 0xFFFFFFFF) as [E|E];
     split; intros E'; try contradiction; auto).
Qed.

(** C9.  The raw accessor [insertion_secs] of a decoded InsertionRecord
    returns the four bytes at offset 8 as they are, the sentinel
    [0xFFFFFFFF] included: the substitution of the system time is made
    by [insertion_time] alone. *)
Theorem insertion_secs_keeps_sentinel (c : cls) (page : list byte) (i : Z)
        (r : record) :
  is_insertion c = true ->
  Create crc16 c page i = Ok r ->
  insertion_secs r = Ok (VInt (uint_at (raw_data r) 8 4))
  /\ (uint_at (raw_data r) 8 4 = 0xFFFFFFFF ->
      insertion_secs r = Ok (VInt 0xFFFFFFFF)
      /\ insertion_time datetime ReceiverTimeToTime r = system_time datetime ReceiverTimeToTime r).
Proof.
  intros Hc HC.
  assert (Hs : insertion_secs r = Ok (VInt (uint_at (raw_data r) 8 4))).
  { destruct c; try discriminate Hc; decoded HC Hk Hlen Hd;
      unfold insertion_secs; rewrite Hk; cbn [is_insertion];
      read_field Hd 2 c_uint32 8%nat; reflexivity. }
  split; [exact Hs|]. intros E. split.
  - rewrite Hs, E. reflexivity.
  - destruct c; try discriminate Hc; decoded HC Hk Hlen Hd;
      unfold insertion_time, system_time; rewrite Hk; cbn [is_insertion];
      read_field Hd 2 c_uint32 8%nat;
      fold (uint_at (raw_data r) 8 4); rewrite E; reflexivity.
Qed.

End Insertion.

Lemma insertion_time_sentinel_witness :
  exists r,
    Sample.Create InsertionRecord Sample.insertion_page 0 = Ok r
    /\ insertion_time Sample.datetime Sample.ReceiverTimeToTime r
       = system_time Sample.datetime Sample.ReceiverTimeToTime r.
Proof.
  eexists. split; [vm_compute; reflexivity|].
  refine (proj1 (proj1 (insertion_time_sentinel Sample.crc16 Sample.datetime
                   Sample.ReceiverTimeToTime InsertionRecord
                   Sample.insertion_page 0 _ eq_refl _) _)).
  - vm_compute. reflexivity.
  - vm_compute. reflexivity.
Defined.

Lemma insertion_secs_keeps_sentinel_witness :
  exists r,
    Sample.Create InsertionRecord Sample.insertion_page 0 = Ok r
    /\ insertion_secs r = Ok (VInt 0xFFFFFFFF).
Proof.
  eexists. split; [vm_compute; reflexivity|].
  refine (proj1 (proj2 (insertion_secs_keeps_sentinel Sample.crc16 Sample.datetime
                   Sample.ReceiverTimeToTime InsertionRecord
                   Sample.insertion_page 0 _ eq_refl _) _)).
  - vm_compute. reflexivity.
  - vm_compute. reflexivity.
Defined.

(** ** Enumerated fields *)

Lemma pyindex_in_range {A : Type} (what : string) (l : list A) (i : Z) (d : A) :
  0 <= i < len l -> pyindex what l i = Ok (nth (Z.to_nat i) l d).
Proof.
  intros H. unfold pyindex, len in *.
  destruct (Z.ltb_spec i 0); [lia|].
  destruct (Z.ltb_spec i 0); [lia|].
  rewrite (nth_error_nth' l d) by lia. reflexivity.
Qed.

Lemma uint_at_nonneg (raw : list byte) (off n : nat) : 0 <= uint_at raw off n.
Proof. unfold uint_at. apply le_combine_bound. Qed.

(** C3, as the code has it.  A decoded record keeps the raw integer of
    an enumerated field ([state_value], [int_type], [int_sub_type]); the
    symbolic accessor looks the integer up in its table with a plain list
    index: inside the table it returns the entry, at or past the end of
    the table it raises [IndexError].  [event_sub_type] is [None] when the
    category has no table of sub-categories, and raises with
    [event_type] when the category itself is out of bounds. *)
Theorem enum_lookup_out_of_bounds
        (crc16 : list byte -> Z) (c : cls) (page : list byte) (i : Z) (r : record) :
  Create crc16 c page i = Ok r ->
  (is_insertion c = true ->
   let s := uint_at (raw_data r) 12 1 in
   state_value r = Ok (VInt s)
   /\ (s < len states -> session_state r = Ok (nth (Z.to_nat s) states None))
   /\ (len states <= s -> session_state r = Raise (IndexError "list")))
  /\ (c = EventRecord ->
      let t := uint_at (raw_data r) 8 1 in
      let u := uint_at (raw_data r) 9 1 in
      int_type r = Ok (VInt t)
      /\ int_sub_type r = Ok (VInt u)
      /\ (len event_types <= t ->
          event_type r = Raise (IndexError "list")
          /\ event_sub_type r = Raise (IndexError "list"))
      /\ (t < len event_types ->
          event_type r = Ok (nth (Z.to_nat t) event_types None)
          /\ match dict_lookup subtypes (nth (Z.to_nat t) event_types None) with
             | None => event_sub_type r = Ok None
             | Some table =>
                 (u < len table ->
                  event_sub_type r = Ok (nth (Z.to_nat u) table None))
                 /\ (len table <= u ->
                     event_sub_type r = Raise (IndexError "list"))
             end)).
Proof.
  intros HC. split.
  - intros Hc s. pose proof (uint_at_nonneg (raw_data r) 12 1) as Hs. fold s in Hs.
    destruct c; try discriminate Hc; decoded HC Hk Hlen Hd;
      unfold state_value, session_state; rewrite Hk; cbn [is_insertion];
      read_field Hd 3 c_uint8 12%nat; fold (uint_at (raw_data r) 12 1); fold s;
      cbn [as_int bind];
      (split; [reflexivity|]; split; intros H;
       [apply pyindex_in_range; lia | apply pyindex_out_of_range; exact H]).
  - intros -> t u.
    pose proof (uint_at_nonneg (raw_data r) 8 1) as Ht. fold t in Ht.
    pose proof (uint_at_nonneg (raw_data r) 9 1) as Hu. fold u in Hu.
    decoded HC Hk Hlen Hd.
    unfold int_type, int_sub_type, event_sub_type, event_type. rewrite Hk.
    read_field Hd 2 c_uint8 8%nat. read_field Hd 3 c_uint8 9%nat.
    fold (uint_at (raw_data r) 8 1) (uint_at (raw_data r) 9 1). fold t u.
    cbn [as_int bind].
    split; [reflexivity|]. split; [reflexivity|]. split.
    + intros H. rewrite (pyindex_out_of_range "list" event_types t H).
      split; reflexivity.
    + intros H. rewrite (pyindex_in_range "list" event_types t None) by lia.
      split; [reflexivity|]. cbn [bind].
      destruct (dict_lookup subtypes (nth (Z.to_nat t) event_types None))
        as [table|]; [|reflexivity].
      cbn [as_int bind]. split; intros H'.
      * apply pyindex_in_range; lia.
      * apply pyindex_out_of_range; exact H'.
Qed.

Lemma enum_lookup_out_of_bounds_witness :
  exists r,
    Sample.Create InsertionRecord Sample.insertion_page_state18 0 = Ok r
    /\ state_value r = Ok (VInt 18)
    /\ session_state r = Raise (IndexError "list").
Proof.
  eexists. split; [vm_compute; reflexivity|].
  match goal with
  | |- state_value ?r = _ /\ _ =>
      assert (HC : Create Sample.crc16 InsertionRecord
                          Sample.insertion_page_state18 0 = Ok r)
        by (vm_compute; reflexivity);
      destruct (enum_lookup_out_of_bounds Sample.crc16 InsertionRecord
                  Sample.insertion_page_state18 0 r HC) as [H _]
  end.
  destruct (H eq_refl) as (Hv & _ & Hs). split.
  - exact Hv.
  - apply Hs. vm_compute. discriminate.
Defined.

(** The claim C3 as stated fails: the record whose session-state byte is
    18, one past the eighteen entries of [states], is decoded and keeps
    the raw 18, but asking for its [session_state] raises [IndexError];
    it is not reported as absent. *)
Lemma session_state_18_raises :
  exists r,
    Sample.Create InsertionRecord Sample.insertion_page_state18 0 = Ok r
    /\ state_value r = Ok (VInt 18)
    /\ session_state r = Raise (IndexError "list")
    /\ session_state r <> Ok None.
Proof.
  eexists. split; [vm_compute; reflexivity|].
  split; [vm_compute; reflexivity|].
  split; [vm_compute; reflexivity|].
  vm_compute. discriminate.
Qed.

(** ** Test numbers *)

(** C5, as the code has it.  In a decoded G5 or G6 glucose record
    [testNum] is the raw field at offset 15 masked with [0x00FFFFFF], so
    a raw [0x12FFFFFF] gives [0x00FFFFFF].  In a decoded G5 meter record
    the combined field holds the test number in its upper three bytes
    and the unknown byte [xx] in its lowest: [testNum] is the raw field
    shifted right by 8 and then masked, so a raw [0x12FFFFFF] gives
    [0x12FFFF]. *)
Theorem testNum_of_combined_field
        (crc16 : list byte -> Z) (c : cls) (page : list byte) (i : Z) (r : record) :
  Create crc16 c page i = Ok r ->
  let raw := uint_at (raw_data r) 15 4 in
  (c = G5EGVRecord \/ c = G6EGVRecord ->
   testNum r = Ok (Z.land raw 0x00FFFFFF)
   /\ (raw = 0x12FFFFFF -> testNum r = Ok 0x00FFFFFF))
  /\ (c = G5MeterRecord ->
      xx_testNum r = Ok (VInt raw)
      /\ testNum r = Ok (Z.land (Z.shiftr raw 8) 0xFFFFFF)
      /\ xx r = Ok (Z.land raw 0xFF)
      /\ (raw = 0x12FFFFFF -> testNum r = Ok 0x12FFFF)).
Proof.
  intros HC raw. split.
  - intros Hc.
    assert (E : testNum r = Ok (Z.land raw 0x00FFFFFF)).
    { destruct Hc as [-> | ->]; decoded HC Hk Hlen Hd;
        unfold testNum; rewrite Hk; read_field Hd 5 c_uint32 15%nat;
        reflexivity. }
    split; [exact E|]. intros Hraw. rewrite E, Hraw. reflexivity.
  - intros ->. decoded HC Hk Hlen Hd.
    unfold xx_testNum, testNum, xx. rewrite Hk.
    read_field Hd 5 c_uint32 15%nat.
    fold (uint_at (raw_data r) 15 4). fold raw. cbn [as_int bind].
    repeat split. intros ->. reflexivity.
Qed.

Lemma testNum_of_combined_field_witness :
  exists r,
    Sample.Create G5EGVRecord Sample.g5egv_page 0 = Ok r
    /\ testNum r = Ok 0x00FFFFFF.
Proof.
  eexists. split; [vm_compute; reflexivity|].
  match goal with
  | |- testNum ?r = _ =>
      assert (HC : Create Sample.crc16 G5EGVRecord Sample.g5egv_page 0 = Ok r)
        by (vm_compute; reflexivity);
      destruct (testNum_of_combined_field Sample.crc16 G5EGVRecord
                  Sample.g5egv_page 0 r HC) as [H _]
  end.
  apply (H (or_introl eq_refl)). vm_compute. reflexivity.
Defined.

(** The claim C5 as stated fails for the G5 meter record: with the raw
    combined field [0x12FFFFFF] its [testNum] is [0x12FFFF], not the
    field masked with [0x00FFFFFF]. *)
Lemma G5MeterRecord_testNum_not_masked :
  exists r,
    Sample.Create G5MeterRecord Sample.g5meter_page 0 = Ok r
    /\ xx_testNum r = Ok (VInt 0x12FFFFFF)
    /\ testNum r = Ok 0x12FFFF
    /\ testNum r <> Ok (Z.land 0x12FFFFFF 0x00FFFFFF).
Proof.
  eexists. split; [vm_compute; reflexivity|].
  split; [vm_compute; reflexivity|].
  split; [vm_compute; reflexivity|].
  vm_compute. discriminate.
Qed.

(** ** G5EGVRecord and G6EGVRecord *)

(** C10.  The two classes declare the same format, and G6EGVRecord
    overrides nothing: on every page and index both fail or both return
    a record, with the same raw bytes and the same fields, so that every
    accessor agrees.  When both fail the exception is the same, but for
    the class name in the message of a [CrcError]. *)
Theorem G5_G6_decode_equivalent
        (crc16 : list byte -> Z) (datetime : Type)
        (ReceiverTimeToTime : Z -> datetime) (page : list byte) (i : Z) :
  FORMAT G5EGVRecord = FORMAT G6EGVRecord
  /\ match Create crc16 G5EGVRecord page i, Create crc16 G6EGVRecord page i with
     | Ok r5, Ok r6 =>
         raw_data r5 = raw_data r6
         /\ data r5 = data r6
         /\ testNum r5 = testNum r6
         /\ full_trend r5 = full_trend r6
         /\ realtime r5 = realtime r6
         /\ full_glucose r5 = full_glucose r6
         /\ system_secs r5 = system_secs r6
         /\ display_secs r5 = display_secs r6
         /\ system_time datetime ReceiverTimeToTime r5
            = system_time datetime ReceiverTimeToTime r6
         /\ display_time datetime ReceiverTimeToTime r5
            = display_time datetime ReceiverTimeToTime r6
     | Raise e5, Raise e6 =>
         e5 = e6
         \/ (e5 = CrcError "Could not parse G5EGVRecord"
             /\ e6 = CrcError "Could not parse G6EGVRecord")
     | _, _ => False
     end.
Proof.
  split; [reflexivity|].
  unfold Create; cbn [is_calibration]. unfold Base_Create.
  replace (_ClassSize G6EGVRecord) with (_ClassSize G5EGVRecord) by reflexivity.
  replace (_ClassFormat G6EGVRecord) with (_ClassFormat G5EGVRecord) by reflexivity.
  destruct (_ClassSize G5EGVRecord) as [size|e]; cbn [bind]; [|now left].
  destruct (_ClassFormat G5EGVRecord) as [st|e]; cbn [bind]; [|now left].
  destruct (struct.unpack st _) as [d|e]; cbn [bind]; [|now left].
  unfold __init__; cbn [is_calibration].
  unfold Base__init__, check_crc, crc, calculate_crc, field.
  cbn [klass raw_data data is_calibration].
  destruct (pyindex "tuple" d (-1)) as [v|e]; cbn [bind]; [|now left].
  destruct (int_ne _ v); cbn [bind]; [right; split; reflexivity|].
  unfold testNum, full_trend, realtime, full_glucose, system_secs, display_secs,
    system_time, display_time, field.
  cbn [klass raw_data data]. repeat split.
Qed.

(** ** Loops that may raise *)

Lemma mapM_ok_map {A B : Type} (f : A -> result B) (g : A -> B) (xs : list A) :
  (forall x, In x xs -> f x = Ok (g x)) -> mapM f xs = Ok (map g xs).
Proof.
  induction xs as [|x xs IH]; intros H; cbn [mapM map]; [reflexivity|].
  rewrite (H x (or_introl eq_refl)). cbn [bind].
  rewrite IH by (intros; apply H; now right). reflexivity.
Qed.

(** When every iteration either succeeds or raises [e], and one raises,
    the loop raises [e]. *)
Lemma mapM_raise {A B : Type} (f : A -> result B) (xs : list A) (e : exn) :
  (forall x, In x xs -> is_ok (f x) = true \/ f x = Raise e) ->
  (exists x, In x xs /\ f x = Raise e) ->
  mapM f xs = Raise e.
Proof.
  induction xs as [|x xs IH]; intros Hall [x0 [Hin Hx0]]; [destruct Hin|].
  cbn [mapM]. destruct (Hall x (or_introl eq_refl)) as [Hok|Hr].
  - destruct (f x) as [y|] eqn:E; [|discriminate]. cbn [bind].
    destruct Hin as [<-|Hin]; [congruence|].
    rewrite IH; [reflexivity | intros; apply Hall; now right | eauto].
  - rewrite Hr. reflexivity.
Qed.

Lemma xrange_nonpos (n : Z) : n <= 0 -> xrange n = [].
Proof.
  intros H. unfold xrange. replace (Z.to_nat n) with 0%nat by lia. reflexivity.
Qed.

Lemma xrange_length (n : Z) : List.length (xrange n) = Z.to_nat n.
Proof. unfold xrange. now rewrite length_map, length_seq. Qed.

Lemma xrange_nth (n : Z) (j : nat) :
  (j < Z.to_nat n)%nat -> nth_error (xrange n) j = Some (Z.of_nat j).
Proof.
  intros H. unfold xrange. rewrite nth_error_map, nth_error_seq.
  destruct (Nat.ltb_spec j (Z.to_nat n)); [reflexivity | lia].
Qed.

Lemma xrange_In (n x : Z) : In x (xrange n) <-> 0 <= x < n.
Proof.
  unfold xrange. rewrite in_map_iff. split.
  - intros [j [<- Hj]]. apply in_seq in Hj. lia.
  - intros H. exists (Z.to_nat x). split; [lia|]. apply in_seq. lia.
Qed.

(** ** Calibration records *)

Lemma SubCal__init__eq (raw : list byte) (off : value) :
  SubCal.__init__ raw off
  = if len raw =? SUBCAL_SIZE
    then Ok (SubCal.mk raw (unpack_fields SubCal_fields raw) off)
    else Raise SubCal_error.
Proof.
  unfold SubCal.__init__. change (struct.compile SubCal.FORMAT)
    with (Ok (mkStruct SubCal.FORMAT SubCal_fields)).
  cbn [bind]. unfold struct.unpack.
  change (struct.size (mkStruct SubCal.FORMAT SubCal_fields)) with SUBCAL_SIZE.
  destruct (len raw =? SUBCAL_SIZE); reflexivity.
Qed.

Lemma calibration_layout (c : cls) :
  is_calibration c = true ->
  format_of c = Ok "<2Iddd3cdb"
  /\ _ClassFormat c = Ok (mkStruct "<2Iddd3cdb" Calibration_fields)
  /\ struct.calcsize "<2Iddd3cdb" = Ok HEADER_SIZE
  /\ (_ClassSize c = Ok REV_2_SIZE \/ _ClassSize c = Ok LEGACY_SIZE).
Proof.
  destruct c; try discriminate; intros _; repeat split; auto.
Qed.

(** In a header unpacked from 44 bytes, field 9 is the signed byte at
    offset 43 and field 1 the display seconds at offset 4. *)
Lemma header_numsub (cal_data : list byte) :
  numsub_of (unpack_fields Calibration_fields cal_data)
  = Ok (declared_count cal_data).
Proof.
  unfold numsub_of. change 9 with (Z.of_nat 9).
  rewrite (pyindex_nth _ _ _ _ (unpack_fields_nth Calibration_fields cal_data 9 c_int8 eq_refl)).
  reflexivity.
Qed.

Lemma header_field1 (cal_data : list byte) :
  pyindex "tuple" (unpack_fields Calibration_fields cal_data) 1
  = Ok (VInt (uint_at cal_data 4 4)).
Proof.
  change 1 with (Z.of_nat 1).
  rewrite (pyindex_nth _ _ _ _ (unpack_fields_nth Calibration_fields cal_data 1 c_uint32 eq_refl)).
  reflexivity.
Qed.

Section CalibrationDecode.

Variable crc16 : list byte -> Z.

(** [Create] of a Calibration class, step by step: the header is
    unpacked from the first 44 bytes at the record's offset, the
    sub-records are decoded from the slice of the record that follows the
    header, and the checksum is checked last. *)
Lemma Calibration_Create_unfold (c : cls) (page : list byte) (i size : Z) :
  is_calibration c = true ->
  _ClassSize c = Ok size ->
  Create crc16 c page i
  = let raw := pyslice page (Some (i * size)) (Some (i * size + size)) in
    let cal_data :=
      pyslice page (Some (i * size)) (Some (i * size + HEADER_SIZE)) in
    if len cal_data =? HEADER_SIZE then
      let d := unpack_fields Calibration_fields cal_data in
      let k := declared_count cal_data in
      let subdata :=
        pyslice raw (Some HEADER_SIZE) (Some (HEADER_SIZE + k * SUBCAL_SIZE)) in
      subs <- mapM (decode_sub d subdata SUBCAL_SIZE) (xrange k) ;;
      check_crc crc16 (mkRecord c raw d subs) ;;;
      Ok (mkRecord c raw d subs)
    else Raise (struct.error "unpack requires a string argument of length 44").
Proof.
  intros Hc Hsz. destruct (calibration_layout c Hc) as (Hf & Hst & Hcs & _).
  unfold Create. rewrite Hc. unfold Calibration_Create.
  rewrite Hsz, Hf. cbn [bind]. rewrite Hcs, Hst. cbn [bind].
  unfold struct.unpack.
  change (struct.size (mkStruct "<2Iddd3cdb" Calibration_fields)) with HEADER_SIZE.
  cbv zeta.
  destruct (len (pyslice page (Some (i * size)) (Some (i * size + HEADER_SIZE)))
            =? HEADER_SIZE); [|reflexivity].
  cbn [bind fields]. unfold __init__. rewrite Hc. unfold Calibration__init__.
  change (struct.calcsize SubCal.FORMAT) with (Ok SUBCAL_SIZE).
  rewrite header_numsub, Hf. cbn [bind]. rewrite Hcs. cbn [bind]. reflexivity.
Qed.

(** The stored checksum of a Calibration instance: its final two bytes,
    low byte first. *)
Lemma crc_calibration (c : cls) (raw : list byte) (d : list value)
      (subs : list SubCal.t) :
  is_calibration c = true ->
  2 <= len raw ->
  crc (mkRecord c raw d subs) = Ok (VInt (le_combine (last2 raw))).
Proof.
  intros Hc Hlen. unfold crc. cbn [klass raw_data]. rewrite Hc.
  change (struct.compile "H") with (Ok (mkStruct "H" [c_uint16])).
  cbn [bind]. unfold struct.unpack.
  change (struct.size (mkStruct "H" [c_uint16])) with 2.
  rewrite pyslice_last2_len, Z.eqb_refl by assumption.
  cbn [bind fields unpack_fields decode code_size].
  rewrite pyslice_last2 by assumption.
  rewrite (firstn_all2 (n := 2)) by (unfold len in Hlen; rewrite length_skipn; lia).
  reflexivity.
Qed.

(** The checksum check of a Calibration instance of at least two bytes. *)
Lemma check_crc_calibration (c : cls) (raw : list byte) (d : list value)
      (subs : list SubCal.t) :
  is_calibration c = true ->
  2 <= len raw ->
  check_crc crc16 (mkRecord c raw d subs)
  = if crc16 (but_last2 raw) =? le_combine (last2 raw)
    then Ok tt
    else Raise (CrcError ("Could not parse " ++ __name__ c)%string).
Proof.
  intros Hc Hlen. unfold check_crc, calculate_crc, crc_span.
  rewrite crc_calibration by assumption. cbn [bind int_ne klass raw_data].
  rewrite pyslice_but_last2 by assumption. fold (but_last2 raw).
  destruct (crc16 (but_last2 raw) =? le_combine (last2 raw)); reflexivity.
Qed.

(** One iteration of the loop over the sub-records: it succeeds exactly
    on a slice of 17 bytes. *)
Lemma decode_sub_eq (cal_data subdata : list byte) (j : Z) :
  decode_sub (unpack_fields Calibration_fields cal_data) subdata SUBCAL_SIZE j
  = let raw_sub :=
      pyslice subdata (Some (j * SUBCAL_SIZE))
              (Some (j * SUBCAL_SIZE + SUBCAL_SIZE)) in
    if len raw_sub =? SUBCAL_SIZE
    then Ok (SubCal.mk raw_sub (unpack_fields SubCal_fields raw_sub)
                       (VInt (uint_at cal_data 4 4)))
    else Raise SubCal_error.
Proof.
  unfold decode_sub. rewrite header_field1. cbn [bind].
  apply SubCal__init__eq.
Qed.

End CalibrationDecode.

Lemma pyslice_nonneg {A : Type} (l : list A) (a b : Z) :
  0 <= a -> 0 <= b ->
  pyslice l (Some a) (Some b)
  = pyslice l (Some (Z.min a (len l))) (Some (Z.max (Z.min a (len l)) (Z.min b (len l)))).
Proof.
  intros Ha Hb. pose proof (len_nonneg l) as Hn. unfold pyslice, clamp_index.
  destruct (Z.ltb_spec a 0); [lia|]. destruct (Z.ltb_spec b 0); [lia|].
  destruct (Z.ltb_spec (Z.min a (len l)) 0); [lia|].
  destruct (Z.ltb_spec (Z.max (Z.min a (len l)) (Z.min b (len l))) 0); [lia|].
  f_equal; [|f_equal]; lia.
Qed.

Lemma pyslice_nonneg_len {A : Type} (l : list A) (a b : Z) :
  0 <= a -> 0 <= b ->
  len (pyslice l (Some a) (Some b))
  = Z.max 0 (Z.min b (len l) - Z.min a (len l)).
Proof.
  intros Ha Hb. pose proof (len_nonneg l) as Hn.
  rewrite pyslice_nonneg by assumption.
  rewrite pyslice_within_len by lia. lia.
Qed.

Section SubRecords.

Variable cal_data : list byte.
Variable raw : list byte.
Variable k : Z.

(** Iteration [j] of the loop, for [0 <= j < k]: it decodes the [j]-th
    block after the header when the record holds that block whole, and
    raises otherwise. *)
Lemma decode_sub_in_range (j : Z) :
  0 <= j < k ->
  decode_sub (unpack_fields Calibration_fields cal_data)
             (pyslice raw (Some HEADER_SIZE) (Some (HEADER_SIZE + k * SUBCAL_SIZE)))
             SUBCAL_SIZE j
  = if HEADER_SIZE + (j + 1) * SUBCAL_SIZE <=? len raw
    then Ok (sub_record raw (VInt (uint_at cal_data 4 4)) (Z.to_nat j))
    else Raise SubCal_error.
Proof.
  intros Hj. rewrite decode_sub_eq. cbv zeta.
  pose proof (len_nonneg raw) as Hn. unfold HEADER_SIZE, SUBCAL_SIZE in *.
  set (subdata := pyslice raw (Some 44) (Some (44 + k * 17))).
  assert (HL : len subdata = Z.max 0 (Z.min (44 + k * 17) (len raw) - Z.min 44 (len raw))).
  { unfold subdata. apply pyslice_nonneg_len; lia. }
  destruct (Z.leb_spec (44 + (j + 1) * 17) (len raw)) as [Hfit|Hshort].
  - assert (E : pyslice subdata (Some (j * 17)) (Some (j * 17 + 17))
                = sub_slice raw (Z.to_nat j)).
    { unfold subdata. rewrite (pyslice_nonneg raw) by lia.
      rewrite pyslice_pyslice by lia.
      rewrite pyslice_within by lia. unfold sub_slice.
      f_equal; [lia | f_equal; lia]. }
    rewrite E.
    assert (len (sub_slice raw (Z.to_nat j)) = 17) as ->.
    { unfold sub_slice, len in *. rewrite length_firstn, length_skipn. lia. }
    reflexivity.
  - assert (len (pyslice subdata (Some (j * 17)) (Some (j * 17 + 17))) <> 17) as Hne.
    { rewrite pyslice_nonneg_len by lia. lia. }
    apply Z.eqb_neq in Hne. rewrite Hne. reflexivity.
Qed.

(** The whole loop: it raises when a positive count overruns the
    record, and otherwise decodes the first [k] blocks (none when [k] is
    zero or negative). *)
Lemma subcals_loop :
  mapM (decode_sub (unpack_fields Calibration_fields cal_data)
                   (pyslice raw (Some HEADER_SIZE)
                            (Some (HEADER_SIZE + k * SUBCAL_SIZE)))
                   SUBCAL_SIZE)
       (xrange k)
  = if (0 <? k) && (len raw <? HEADER_SIZE + k * SUBCAL_SIZE)
    then Raise SubCal_error
    else Ok (map (fun j => sub_record raw (VInt (uint_at cal_data 4 4)) (Z.to_nat j))
                 (xrange k)).
Proof.
  destruct (Z.ltb_spec 0 k) as [Hpos|Hneg]; cbn [andb].
  - destruct (Z.ltb_spec (len raw) (HEADER_SIZE + k * SUBCAL_SIZE)) as [Hover|Hfit].
    + apply mapM_raise.
      * intros x Hx. apply xrange_In in Hx. rewrite decode_sub_in_range by lia.
        destruct (_ <=? _); [now left | now right].
      * exists (k - 1). split; [apply xrange_In; lia|].
        rewrite decode_sub_in_range by lia.
        destruct (Z.leb_spec (HEADER_SIZE + (k - 1 + 1) * SUBCAL_SIZE) (len raw));
          [|reflexivity].
        replace (k - 1 + 1) with k in * by lia. lia.
    + apply mapM_ok_map. intros x Hx. apply xrange_In in Hx.
      rewrite decode_sub_in_range by lia.
      destruct (Z.leb_spec (HEADER_SIZE + (x + 1) * SUBCAL_SIZE) (len raw));
        [reflexivity|].
      unfold HEADER_SIZE, SUBCAL_SIZE in *. lia.
  - rewrite xrange_nonpos by lia. reflexivity.
Qed.

End SubRecords.

Section CalibrationRecords.

Variable crc16 : list byte -> Z.

(** [Create] of a Calibration class in closed form. *)
Lemma Calibration_Create_eq (c : cls) (page : list byte) (i size : Z) :
  is_calibration c = true ->
  _ClassSize c = Ok size ->
  Create crc16 c page i
  = let raw := pyslice page (Some (i * size)) (Some (i * size + size)) in
    let cal_data :=
      pyslice page (Some (i * size)) (Some (i * size + HEADER_SIZE)) in
    if len cal_data =? HEADER_SIZE then
      let k := declared_count cal_data in
      if (0 <? k) && (len raw <? HEADER_SIZE + k * SUBCAL_SIZE)
      then Raise SubCal_error
      else
        let self :=
          mkRecord c raw (unpack_fields Calibration_fields cal_data)
                   (map (fun j => sub_record raw (VInt (uint_at cal_data 4 4))
                                             (Z.to_nat j))
                        (xrange k)) in
        check_crc crc16 self ;;; Ok self
    else Raise (struct.error "unpack requires a string argument of length 44").
Proof.
  intros Hc Hsz. rewrite (Calibration_Create_unfold crc16 c page i size Hc Hsz).
  cbv zeta. destruct (_ =? HEADER_SIZE); [|reflexivity].
  rewrite subcals_loop. destruct (_ && _); reflexivity.
Qed.

(** What a decoded Calibration holds. *)
Lemma Calibration_Create_inv (c : cls) (page : list byte) (i : Z) (r : record) :
  is_calibration c = true ->
  Create crc16 c page i = Ok r ->
  exists cal_data,
    let k := declared_count cal_data in
    klass r = c
    /\ len cal_data = HEADER_SIZE
    /\ data r = unpack_fields Calibration_fields cal_data
    /\ subcals r
       = map (fun j => sub_record (raw_data r) (VInt (uint_at cal_data 4 4))
                                  (Z.to_nat j))
             (xrange k)
    /\ (0 < k -> HEADER_SIZE + k * SUBCAL_SIZE <= len (raw_data r)).
Proof.
  intros Hc. destruct (calibration_layout c Hc) as (_ & _ & _ & Hsz).
  assert (exists size, _ClassSize c = Ok size) as [size Hsize]
      by (destruct Hsz; eauto).
  rewrite (Calibration_Create_eq c page i size Hc Hsize). cbv zeta.
  set (raw := pyslice page (Some (i * size)) (Some (i * size + size))).
  set (cal_data := pyslice page _ (Some (i * size + HEADER_SIZE))).
  destruct (Z.eqb_spec (len cal_data) HEADER_SIZE) as [Hlen|]; [|discriminate].
  destruct (Z.ltb_spec 0 (declared_count cal_data)) as [Hpos|Hneg]; cbn [andb].
  - destruct (Z.ltb_spec (len raw)
                (HEADER_SIZE + declared_count cal_data * SUBCAL_SIZE))
      as [Hover|Hfit]; [discriminate|].
    destruct (check_crc _ _); [|discriminate]. cbn [bind]. intros H.
    injection H as <-. exists cal_data. cbn [klass raw_data data subcals]. auto.
  - destruct (check_crc _ _); [|discriminate]. cbn [bind]. intros H.
    injection H as <-. exists cal_data. cbn [klass raw_data data subcals].
    repeat split; auto. lia.
Qed.

End CalibrationRecords.

(** ** The export of a Calibration *)

Lemma dict_get_set_same (k : string) (v : pyobj) (d : dict) :
  dict_get k (dict_set k v d) = Some v.
Proof.
  induction d as [|[k' v'] d IH]; cbn [dict_set dict_get].
  - now rewrite String.eqb_refl.
  - destruct (String.eqb k' k) eqn:E; cbn [dict_get].
    + now rewrite String.eqb_refl.
    + now rewrite E.
Qed.

Section CalibrationExport.

Variable datetime : Type.
Variable ReceiverTimeToTime : Z -> datetime.
Variable isoformat : datetime -> string.

(** The export of a sub-record unpacked from its raw bytes. *)
Lemma SubCal_to_dict_eq (raw : list byte) (off : value) (j : nat) :
  SubCal_to_dict datetime ReceiverTimeToTime isoformat (sub_record raw off j)
  = Ok (SubCal_export datetime ReceiverTimeToTime isoformat (sub_record raw off j)).
Proof.
  unfold sub_record, SubCal_export. cbn [SubCal.raw_data].
  generalize (sub_slice raw j) as bs. intros bs.
  unfold SubCal_to_dict, SubCal_FIELDS. cbn [app to_dict_loop].
  unfold SubCal_getattr, entered, meter, sensor, applied, SubCal_field.
  cbn [SubCal.data String.eqb Ascii.eqb Bool.eqb].
  rewrite (unpacked_at SubCal_fields bs 0 c_uint32 0%nat ltac:(lia) eq_refl eq_refl).
  rewrite (unpacked_at SubCal_fields bs 1 c_uint32 4%nat ltac:(lia) eq_refl eq_refl).
  rewrite (unpacked_at SubCal_fields bs 2 c_uint32 8%nat ltac:(lia) eq_refl eq_refl).
  rewrite (unpacked_at SubCal_fields bs 3 c_uint32 12%nat ltac:(lia) eq_refl eq_refl).
  reflexivity.
Qed.

(** The inherited part of the export of a Calibration succeeds on a
    header unpacked from 44 bytes. *)
Lemma Calibration_base_to_dict (r : record) (cal_data : list byte) :
  is_calibration (klass r) = true ->
  data r = unpack_fields Calibration_fields cal_data ->
  exists res,
    to_dict_loop datetime isoformat
                 (Calibration_getattr datetime ReceiverTimeToTime r)
                 (BASE_FIELDS ++ FIELDS (klass r)) []
    = Ok res.
Proof.
  intros Hc Hd.
  assert (FIELDS (klass r)
          = ["slope"; "intercept"; "scale"; "decay"; "numsub"; "raw"]) as ->
      by (destruct (klass r); (discriminate || reflexivity)).
  assert (Hsys : exists t, system_time datetime ReceiverTimeToTime r = Ok t).
  { unfold system_time, field. rewrite Hd.
    rewrite (unpacked_at Calibration_fields cal_data 0 c_uint32 0%nat
               ltac:(lia) eq_refl eq_refl).
    destruct (klass r); try discriminate Hc; eexists; reflexivity. }
  assert (Hdis : exists t, display_time datetime ReceiverTimeToTime r = Ok t).
  { unfold display_time, field. rewrite Hd.
    rewrite (unpacked_at Calibration_fields cal_data 1 c_uint32 4%nat
               ltac:(lia) eq_refl eq_refl).
    destruct (klass r); try discriminate Hc; eexists; reflexivity. }
  destruct Hsys as [t0 Hsys], Hdis as [t1 Hdis].
  unfold BASE_FIELDS. cbn [app to_dict_loop].
  unfold Calibration_getattr, slope, intercept, scale, decay, numsub, field.
  cbn [String.eqb Ascii.eqb Bool.eqb]. rewrite Hsys, Hdis, Hd, header_numsub.
  rewrite (unpacked_at Calibration_fields cal_data 2 c_double 8%nat
             ltac:(lia) eq_refl eq_refl).
  rewrite (unpacked_at Calibration_fields cal_data 3 c_double 16%nat
             ltac:(lia) eq_refl eq_refl).
  rewrite (unpacked_at Calibration_fields cal_data 4 c_double 24%nat
             ltac:(lia) eq_refl eq_refl).
  rewrite (unpacked_at Calibration_fields cal_data 8 c_double 35%nat
             ltac:(lia) eq_refl eq_refl).
  eexists. reflexivity.
Qed.

End CalibrationExport.

(** C8, as the code has it.  The count a Calibration header declares is
    a signed byte [k].  A decoded Calibration holds [max k 0]
    sub-records, so exactly [k] when [k] is not negative: the [j]-th is
    unpacked from the [j]-th block of 17 bytes after the 44 bytes of the
    header, each block whole; and the export succeeds and holds, under
    the key ["subrecords"], the list of the exports of these sub-records
    in order. *)
Theorem Calibration_subrecords
        (crc16 : list byte -> Z) (datetime : Type)
        (ReceiverTimeToTime : Z -> datetime) (isoformat : datetime -> string)
        (c : cls) (page : list byte) (i : Z) (r : record) (k : Z) :
  is_calibration c = true ->
  Create crc16 c page i = Ok r ->
  numsub r = Ok k ->
  List.length (subcals r) = Z.to_nat k
  /\ (forall j, (j < Z.to_nat k)%nat ->
      exists s,
        nth_error (subcals r) j = Some s
        /\ SubCal.raw_data s = sub_slice (raw_data r) j
        /\ List.length (SubCal.raw_data s) = 17%nat
        /\ SubCal.data s = unpack_fields SubCal_fields (SubCal.raw_data s))
  /\ exists d,
      Calibration_to_dict datetime ReceiverTimeToTime isoformat r = Ok d
      /\ dict_get "subrecords" d
         = Some (OList (map (fun s => ODict (SubCal_export datetime
                                               ReceiverTimeToTime isoformat s))
                            (subcals r))).
Proof.
  intros Hc HC Hnum.
  destruct (Calibration_Create_inv crc16 c page i r Hc HC)
    as (cal_data & Hk & Hlen & Hd & Hsubs & Hfit).
  unfold numsub in Hnum. rewrite Hd, header_numsub in Hnum.
  injection Hnum as Hnum. rewrite Hnum in Hsubs, Hfit.
  split; [|split].
  - rewrite Hsubs, length_map. apply xrange_length.
  - intros j Hj. eexists. split.
    + rewrite Hsubs, nth_error_map, (xrange_nth k j Hj). cbn [option_map].
      rewrite Nat2Z.id. reflexivity.
    + unfold sub_record. cbn [SubCal.raw_data SubCal.data].
      repeat split. unfold sub_slice.
      rewrite length_firstn, length_skipn.
      unfold HEADER_SIZE, SUBCAL_SIZE, len in Hfit. lia.
  - unfold Calibration_to_dict.
    destruct (Calibration_base_to_dict datetime ReceiverTimeToTime isoformat
                r cal_data) as [res Hres]; [now rewrite Hk | exact Hd |].
    rewrite Hres. cbn [bind].
    rewrite (mapM_ok_map _
               (SubCal_export datetime ReceiverTimeToTime isoformat)).
    + cbn [bind]. eexists. split; [reflexivity|].
      rewrite dict_get_set_same, map_map. reflexivity.
    + intros s Hs. rewrite Hsubs in Hs. apply in_map_iff in Hs.
      destruct Hs as [x [<- _]]. apply SubCal_to_dict_eq.
Qed.

Lemma Calibration_subrecords_witness :
  exists r,
    Sample.Create LegacyCalibration Sample.legacy_page 0 = Ok r
    /\ List.length (subcals r) = 2%nat.
Proof.
  eexists. split; [vm_compute; reflexivity|].
  match goal with
  | |- List.length (subcals ?r) = _ =>
      assert (HC : Create Sample.crc16 LegacyCalibration Sample.legacy_page 0
                   = Ok r) by (vm_compute; reflexivity);
      assert (HN : numsub r = Ok 2) by (vm_compute; reflexivity);
      exact (proj1 (Calibration_subrecords Sample.crc16 Sample.datetime
                      Sample.ReceiverTimeToTime Sample.isoformat
                      LegacyCalibration Sample.legacy_page 0 r 2
                      eq_refl HC HN))
  end.
Defined.

(** The claim C8 as stated fails on a negative count: the record whose
    count byte is [0xff] declares [-1] sub-records, is decoded, and holds
    none. *)
Lemma Calibration_negative_count :
  exists r,
    Sample.Create Calibration (Sample.calibration_page Byte.xff) 0 = Ok r
    /\ numsub r = Ok (-1)
    /\ subcals r = []
    /\ len (subcals r) <> -1.
Proof.
  eexists. split; [vm_compute; reflexivity|].
  split; [vm_compute; reflexivity|].
  split; [vm_compute; reflexivity|].
  vm_compute. discriminate.
Qed.

(** ** A Calibration inside its page *)

Lemma uint_at_firstn (raw : list byte) (m off n : nat) :
  (off + n <= m)%nat -> uint_at (firstn m raw) off n = uint_at raw off n.
Proof.
  intros H. unfold uint_at. rewrite skipn_firstn_comm, firstn_firstn.
  do 2 f_equal. lia.
Qed.

Lemma record_slice_length (page : list byte) (i size : Z) :
  0 <= i -> 0 <= size -> (i + 1) * size <= len page ->
  len (record_slice page i size) = size.
Proof.
  intros Hi Hs Hp. unfold record_slice, len in *.
  rewrite length_firstn, length_skipn. nia.
Qed.

Lemma calibration_size (c : cls) (size : Z) :
  is_calibration c = true -> _ClassSize c = Ok size ->
  size = REV_2_SIZE \/ size = LEGACY_SIZE.
Proof.
  intros Hc Hs. destruct c; try discriminate Hc; injection Hs as <-; auto.
Qed.

Section CalibrationInPage.

Variable crc16 : list byte -> Z.

(** [Create] of a Calibration class on a page that holds the whole
    record: an overrunning count raises the unpack error of the first
    sub-record cut short; otherwise the checksum of every byte but the
    final two is compared with the final two. *)
Lemma Calibration_Create_in_page (c : cls) (page : list byte) (i size : Z) :
  is_calibration c = true ->
  _ClassSize c = Ok size ->
  0 <= i ->
  (i + 1) * size <= len page ->
  let raw := record_slice page i size in
  let k := declared_count raw in
  Create crc16 c page i
  = if (0 <? k) && (size <? HEADER_SIZE + k * SUBCAL_SIZE)
    then Raise SubCal_error
    else if crc16 (but_last2 raw) =? le_combine (last2 raw)
         then Ok (mkRecord c raw
                    (unpack_fields Calibration_fields (firstn 44 raw))
                    (map (fun j => sub_record raw (VInt (uint_at raw 4 4))
                                              (Z.to_nat j))
                         (xrange k)))
         else Raise (CrcError ("Could not parse " ++ __name__ c)%string).
Proof.
  intros Hc Hsz Hi Hpage raw k.
  assert (Hsize : 44 < size)
    by (destruct (calibration_size c size Hc Hsz) as [-> | ->]; reflexivity).
  assert (Hraw : len raw = size) by (apply record_slice_length; lia).
  rewrite (Calibration_Create_eq crc16 c page i size Hc Hsz). cbv zeta.
  rewrite record_slice_pyslice by lia. fold raw.
  assert (Hcal : pyslice page (Some (i * size)) (Some (i * size + HEADER_SIZE))
                 = firstn 44 raw).
  { unfold HEADER_SIZE. rewrite pyslice_within by nia.
    unfold raw, record_slice. rewrite firstn_firstn.
    f_equal; lia. }
  rewrite Hcal.
  assert (len (firstn 44 raw) = HEADER_SIZE) as ->.
  { unfold len, HEADER_SIZE in *. rewrite length_firstn. lia. }
  rewrite Z.eqb_refl.
  unfold declared_count. rewrite !uint_at_firstn by lia.
  fold (declared_count raw). fold k. rewrite Hraw.
  destruct ((0 <? k) && (size <? HEADER_SIZE + k * SUBCAL_SIZE)); [reflexivity|].
  rewrite check_crc_calibration by (assumption || lia).
  destruct (crc16 (but_last2 raw) =? le_combine (last2 raw)); reflexivity.
Qed.

End CalibrationInPage.

(** C2, as the code has it.  On a page that holds the whole record, a
    Calibration whose header plus declared sub-records exceed the record
    size is not decoded: [Create] raises the [struct.error] of the first
    sub-record whose slice is cut short, whatever the checksum function;
    the code has no [MalformedRecord] and finds the overrun by slicing.
    A count of 0 is valid: the record is decoded with no sub-records when
    its checksum matches, and is a [CrcError] otherwise. *)
Theorem Calibration_overrun
        (crc16 : list byte -> Z) (c : cls) (page : list byte) (i size : Z) :
  is_calibration c = true ->
  _ClassSize c = Ok size ->
  0 <= i ->
  (i + 1) * size <= len page ->
  let raw := record_slice page i size in
  let k := declared_count raw in
  (size < HEADER_SIZE + k * SUBCAL_SIZE ->
   Create crc16 c page i = Raise SubCal_error)
  /\ (k = 0 ->
      (crc16 (but_last2 raw) = le_combine (last2 raw) ->
       exists r, Create crc16 c page i = Ok r
                 /\ raw_data r = raw /\ subcals r = [])
      /\ (crc16 (but_last2 raw) <> le_combine (last2 raw) ->
          Create crc16 c page i
          = Raise (CrcError ("Could not parse " ++ __name__ c)%string))).
Proof.
  intros Hc Hsz Hi Hpage raw k.
  pose proof (Calibration_Create_in_page crc16 c page i size Hc Hsz Hi Hpage) as E.
  cbv zeta in E. fold raw in E. fold k in E.
  assert (Hsize : 44 < size)
    by (destruct (calibration_size c size Hc Hsz) as [-> | ->]; reflexivity).
  split.
  - intros Hover. rewrite E.
    destruct (Z.ltb_spec 0 k) as [Hpos|Hneg];
      [|unfold HEADER_SIZE, SUBCAL_SIZE in *; lia].
    destruct (Z.ltb_spec size (HEADER_SIZE + k * SUBCAL_SIZE)) as [_|Hfit];
      [reflexivity | lia].
  - intros Hzero. rewrite E, Hzero. cbn [Z.ltb Z.compare andb xrange map].
    split; intros Hcrc.
    + apply Z.eqb_eq in Hcrc. rewrite Hcrc. eexists. split; [reflexivity|].
      split; reflexivity.
    + apply Z.eqb_neq in Hcrc. rewrite Hcrc. reflexivity.
Qed.

Lemma Calibration_overrun_witness :
  Sample.Create Calibration (Sample.calibration_page Byte.x0d) 0
  = Raise SubCal_error.
Proof.
  refine (proj1 (Calibration_overrun Sample.crc16 Calibration
                   (Sample.calibration_page Byte.x0d) 0 249
                   eq_refl eq_refl _ _) _).
  - lia.
  - vm_compute. discriminate.
  - vm_compute. reflexivity.
Defined.

(** The claim C2 as stated fails: a revision-2 Calibration declaring 13
    sub-records, 44 + 13 * 17 = 265 bytes in a record of 249, raises
    [struct.error], not [MalformedRecord]. *)
Lemma Calibration_overrun_is_struct_error :
  HEADER_SIZE + 13 * SUBCAL_SIZE > REV_2_SIZE
  /\ declared_count (Sample.calibration_page Byte.x0d) = 13
  /\ Sample.Create Calibration (Sample.calibration_page Byte.x0d) 0
     = Raise (Exn "struct.error" "unpack requires a string argument of length 17")
  /\ exists e,
      Sample.Create Calibration (Sample.calibration_page Byte.x0d) 0 = Raise e
      /\ exn_class e <> "MalformedRecord".
Proof.
  split; [reflexivity|]. split; [vm_compute; reflexivity|].
  split; [vm_compute; reflexivity|].
  eexists. split; [vm_compute; reflexivity|]. discriminate.
Qed.

(** C1, as the code has it.  For both Calibration sizes, on a page that
    holds the whole record, the checksum is computed over every byte of
    the record but its final two and compared with the final two bytes
    read as a little-endian 16-bit integer, whatever count the header
    declares.  When no declared sub-record overruns the record, [Create]
    returns a record exactly when the two agree and raises [CrcError]
    otherwise.  The checksummed bytes are the header plus the declared
    sub-records only when 44 + 17 k is the record size less two. *)
Theorem Calibration_checksum_span
        (crc16 : list byte -> Z) (c : cls) (page : list byte) (i size : Z) :
  is_calibration c = true ->
  _ClassSize c = Ok size ->
  0 <= i ->
  (i + 1) * size <= len page ->
  let raw := record_slice page i size in
  let k := declared_count raw in
  let computed := crc16 (but_last2 raw) in
  let stored := le_combine (last2 raw) in
  crc_span raw = but_last2 raw
  /\ (forall r, Create crc16 c page i = Ok r ->
                raw_data r = raw
                /\ calculate_crc crc16 r = computed
                /\ crc r = Ok (VInt stored)
                /\ computed = stored)
  /\ (k <= 0 \/ HEADER_SIZE + k * SUBCAL_SIZE <= size ->
      ((exists r, Create crc16 c page i = Ok r) <-> computed = stored)
      /\ (computed <> stored ->
          Create crc16 c page i
          = Raise (CrcError ("Could not parse " ++ __name__ c)%string)))
  /\ (0 <= k ->
      (but_last2 raw = firstn (Z.to_nat (HEADER_SIZE + k * SUBCAL_SIZE)) raw
       <-> HEADER_SIZE + k * SUBCAL_SIZE = size - 2)).
Proof.
  intros Hc Hsz Hi Hpage raw k computed stored.
  pose proof (Calibration_Create_in_page crc16 c page i size Hc Hsz Hi Hpage) as E.
  cbv zeta in E. fold raw in E. fold k in E. fold computed stored in E.
  assert (Hsize : 44 < size)
    by (destruct (calibration_size c size Hc Hsz) as [-> | ->]; reflexivity).
  assert (Hraw : len raw = size) by (apply record_slice_length; lia).
  split; [|split; [|split]].
  - unfold crc_span. apply pyslice_but_last2. lia.
  - intros r Hr. rewrite E in Hr.
    destruct ((0 <? k) && (size <? HEADER_SIZE + k * SUBCAL_SIZE));
      [discriminate|].
    destruct (Z.eqb_spec computed stored) as [Heq|]; [|discriminate].
    injection Hr as <-. cbn [raw_data]. split; [reflexivity|]. split.
    + unfold calculate_crc, crc_span. cbn [raw_data].
      rewrite pyslice_but_last2 by lia. reflexivity.
    + split; [|exact Heq]. apply crc_calibration; [assumption | lia].
  - intros Hfit. rewrite E.
    assert ((0 <? k) && (size <? HEADER_SIZE + k * SUBCAL_SIZE) = false) as ->.
    { destruct (Z.ltb_spec 0 k); [|reflexivity].
      destruct (Z.ltb_spec size (HEADER_SIZE + k * SUBCAL_SIZE)); [lia|reflexivity]. }
    destruct (Z.eqb_spec computed stored) as [Heq|Hne].
    + split; [|intros; contradiction].
      split; [intros _; exact Heq | intros _; eexists; reflexivity].
    + split; [|intros _; reflexivity].
      split; [intros [r Hr]; discriminate | intros; contradiction].
  - intros Hk. unfold but_last2. unfold HEADER_SIZE, SUBCAL_SIZE, len in *.
    split.
    + intros Heq. apply (f_equal (@List.length byte)) in Heq.
      rewrite !length_firstn in Heq. lia.
    + intros Heq. f_equal. lia.
Qed.

Lemma Calibration_checksum_span_witness :
  exists r, Sample.Create LegacyCalibration Sample.legacy_page 0 = Ok r.
Proof.
  refine (proj2 (proj1 (proj1 (proj2 (proj2
            (Calibration_checksum_span Sample.crc16 LegacyCalibration
               Sample.legacy_page 0 148 eq_refl eq_refl _ _))) _)) _).
  - lia.
  - vm_compute. discriminate.
  - right. vm_compute. discriminate.
  - vm_compute. reflexivity.
Defined.

(** The claim C1 as stated fails: in this revision-2 record of count 0
    the checksum of the 44 header bytes equals the 16-bit field that
    follows them, yet [Create] raises [CrcError], because the bytes it
    checksums are the first 247, not the header. *)
Lemma Calibration_checksum_not_header_span :
  declared_count Sample.stray_page = 0
  /\ Sample.crc16 (firstn 44 Sample.stray_page) = uint_at Sample.stray_page 44 2
  /\ Sample.Create Calibration Sample.stray_page 0
     = Raise (CrcError "Could not parse Calibration")
  /\ crc_span Sample.stray_page <> firstn 44 Sample.stray_page.
Proof.
  split; [vm_compute; reflexivity|]. split; [vm_compute; reflexivity|].
  split; [vm_compute; reflexivity|]. vm_compute. discriminate.
Qed.

(** ** The header of a decoded Calibration *)

(** The header slice and the record slice start at the same place: when
    the header slice is whole and the record slice is not empty, the
    header is the first 44 bytes of the record. *)
Lemma header_is_prefix {A : Type} (page : list A) (i size : Z) :
  44 < size ->
  len (pyslice page (Some (i * size)) (Some (i * size + 44))) = 44 ->
  2 <= len (pyslice page (Some (i * size)) (Some (i * size + size))) ->
  pyslice page (Some (i * size)) (Some (i * size + 44))
  = firstn 44 (pyslice page (Some (i * size)) (Some (i * size + size))).
Proof.
  intros Hsize Hcal Hraw. pose proof (len_nonneg page) as Hn.
  assert (0 <= i * size \/ i * size + size <= 0) as Hi
      by (destruct (Z.le_gt_cases 0 i); [left | right]; nia).
  revert Hi Hcal Hraw. generalize (i * size) as a. intros a Hi Hcal Hraw.
  unfold pyslice, clamp_index, len in *.
  rewrite length_firstn, length_skipn in Hcal, Hraw.
  rewrite firstn_firstn.
  destruct (Z.ltb_spec a 0), (Z.ltb_spec (a + 44) 0), (Z.ltb_spec (a + size) 0);
    try lia; f_equal; lia.
Qed.

Section CalibrationHeader.

Variable crc16 : list byte -> Z.

(** The stored checksum of a Calibration instance of less than two
    bytes cannot be unpacked. *)
Lemma crc_calibration_short (c : cls) (raw : list byte) (d : list value)
      (subs : list SubCal.t) :
  is_calibration c = true ->
  len raw < 2 ->
  check_crc crc16 (mkRecord c raw d subs)
  = Raise (struct.error "unpack requires a string argument of length 2").
Proof.
  intros Hc Hlen. unfold check_crc, crc. cbn [klass raw_data]. rewrite Hc.
  change (struct.compile "H") with (Ok (mkStruct "H" [c_uint16])).
  cbn [bind]. unfold struct.unpack.
  change (struct.size (mkStruct "H" [c_uint16])) with 2.
  assert (len (pyslice raw (Some (-2)) None) <> 2) as Hne.
  { pose proof (len_nonneg raw) as Hn. unfold pyslice, clamp_index.
    change (-2 <? 0) with true. cbv iota. unfold len in *.
    rewrite length_firstn, length_skipn. lia. }
  apply Z.eqb_neq in Hne. rewrite Hne. reflexivity.
Qed.

(** The tuple of a decoded Calibration is unpacked from the first 44
    bytes of its raw data, on every page and index. *)
Lemma Calibration_header (c : cls) (page : list byte) (i : Z) (r : record) :
  is_calibration c = true ->
  Create crc16 c page i = Ok r ->
  klass r = c
  /\ data r = unpack_fields Calibration_fields (firstn 44 (raw_data r)).
Proof.
  intros Hcal HC.
  destruct (calibration_layout c Hcal) as (_ & _ & _ & Hsz).
  assert (exists size, _ClassSize c = Ok size /\ 44 < size) as (size & Hsize & Hgt).
  { destruct Hsz; eexists; split; eauto; reflexivity. }
  rewrite (Calibration_Create_eq crc16 c page i size Hcal Hsize) in HC.
  cbv zeta in HC. unfold HEADER_SIZE in HC.
  set (raw := pyslice page (Some (i * size)) (Some (i * size + size))) in *.
  set (cal_data := pyslice page (Some (i * size)) (Some (i * size + 44))) in *.
  destruct (Z.eqb_spec (len cal_data) 44) as [Hlen|]; [|discriminate].
  destruct (_ && _); [discriminate|].
  destruct (Z.le_gt_cases 2 (len raw)) as [Hraw|Hshort].
  - assert (E : cal_data = firstn 44 raw)
      by (apply header_is_prefix; assumption).
    destruct (check_crc _ _); [|discriminate]. cbn [bind] in HC.
    injection HC as Hr. rewrite <- Hr. cbn [klass raw_data data].
    split; [reflexivity|]. rewrite E. reflexivity.
  - rewrite crc_calibration_short in HC by (assumption || lia). discriminate.
Qed.

End CalibrationHeader.

(** ** Timestamps *)

Lemma Create_abstract_class (crc16 : list byte -> Z) (page : list byte)
      (i : Z) (r : record) (c : cls) :
  FORMAT c = None -> Create crc16 c page i <> Ok r.
Proof.
  destruct c; try discriminate; intros _; discriminate.
Qed.

(** C7, as the code has it.  In every decoded record the first field of
    the tuple is the four bytes at offset 0 and the second the four bytes
    at offset 4; [system_secs] and [display_secs] return them, and
    [system_time] is the conversion of [system_secs].  [display_time] is
    the conversion of [display_secs] for every class but EventRecord,
    which overrides it with the conversion of its fifth field, the four
    bytes at offset 10 that [meter_secs] returns, while its
    [display_secs] remains the second field. *)
Theorem timestamps_of_decoded
        (crc16 : list byte -> Z) (datetime : Type)
        (ReceiverTimeToTime : Z -> datetime)
        (c : cls) (page : list byte) (i : Z) (r : record) :
  Create crc16 c page i = Ok r ->
  let s := uint_at (raw_data r) 0 4 in
  let d := uint_at (raw_data r) 4 4 in
  nth_error (data r) 0 = Some (VInt s)
  /\ nth_error (data r) 1 = Some (VInt d)
  /\ system_secs r = Ok (VInt s)
  /\ display_secs r = Ok (VInt d)
  /\ system_time datetime ReceiverTimeToTime r = Ok (ReceiverTimeToTime s)
  /\ (c <> EventRecord ->
      display_time datetime ReceiverTimeToTime r = Ok (ReceiverTimeToTime d))
  /\ (c = EventRecord ->
      nth_error (data r) 4 = Some (VInt (uint_at (raw_data r) 10 4))
      /\ meter_secs r = Ok (VInt (uint_at (raw_data r) 10 4))
      /\ display_time datetime ReceiverTimeToTime r
         = Ok (ReceiverTimeToTime (uint_at (raw_data r) 10 4))).
Proof.
  intros HC s d.
  destruct (is_calibration c) eqn:Hcal.
  - destruct (Calibration_header crc16 c page i r Hcal HC) as (Hk & Hd).
    assert (N0 : nth_error (data r) 0 = Some (VInt s)).
    { rewrite Hd, (unpack_fields_nth Calibration_fields _ 0 c_uint32 eq_refl).
      unfold s. rewrite <- (uint_at_firstn (raw_data r) 44 0 4) by lia.
      reflexivity. }
    assert (N1 : nth_error (data r) 1 = Some (VInt d)).
    { rewrite Hd, (unpack_fields_nth Calibration_fields _ 1 c_uint32 eq_refl).
      unfold d. rewrite <- (uint_at_firstn (raw_data r) 44 4 4) by lia.
      reflexivity. }
    assert (F0 : field r 0 = Ok (VInt s))
      by (apply (pyindex_nth "tuple" (data r) 0), N0).
    assert (F1 : field r 1 = Ok (VInt d))
      by (apply (pyindex_nth "tuple" (data r) 1), N1).
    unfold system_secs, display_secs, system_time, display_time.
    rewrite Hk.
    destruct c; try discriminate Hcal; rewrite F0, F1;
      (repeat split; intros; (assumption || discriminate)).
  - destruct c; try discriminate Hcal;
      try (exfalso;
           match type of HC with
           | Create _ ?k _ _ = _ =>
               exact (Create_abstract_class crc16 page i r k eq_refl HC)
           end);
      decoded HC Hk Hlen Hd;
      (split; [rewrite Hd; reflexivity|]);
      (split; [rewrite Hd; reflexivity|]);
      unfold system_secs, display_secs, system_time, display_time, meter_secs;
      rewrite Hk;
      read_field Hd 0 c_uint32 0%nat; read_field Hd 1 c_uint32 4%nat;
      try read_field Hd 4 c_uint32 10%nat;
      (repeat split; intros; try (discriminate || congruence);
       rewrite Hd;
       match goal with
       | |- nth_error (unpack_fields ?fs ?bs) 4 = _ =>
           rewrite (unpack_fields_nth fs bs 4 c_uint32 eq_refl); reflexivity
       end).
Qed.

Lemma timestamps_of_decoded_witness :
  exists r,
    Sample.Create EventRecord Sample.event_page 0 = Ok r
    /\ system_time Sample.datetime Sample.ReceiverTimeToTime r
       = Ok (Sample.ReceiverTimeToTime 1)
    /\ display_secs r = Ok (VInt 2)
    /\ display_time Sample.datetime Sample.ReceiverTimeToTime r
       = Ok (Sample.ReceiverTimeToTime 5).
Proof.
  eexists. split; [vm_compute; reflexivity|].
  match goal with
  | |- system_time _ _ ?r = _ /\ _ =>
      assert (HC : Create Sample.crc16 EventRecord Sample.event_page 0 = Ok r)
        by (vm_compute; reflexivity);
      destruct (timestamps_of_decoded Sample.crc16 Sample.datetime
                  Sample.ReceiverTimeToTime EventRecord Sample.event_page 0 r HC)
        as (_ & _ & _ & Hd & Ht & _ & He)
  end.
  split; [exact Ht|]. split; [exact Hd|].
  exact (proj2 (proj2 (He eq_refl))).
Defined.

(** The claim C7 as stated fails for the EventRecord: this one has
    display seconds 2 and its [display_time] is the conversion of 5, the
    seconds at offset 10. *)
Lemma EventRecord_display_time_not_display_secs :
  exists r,
    Sample.Create EventRecord Sample.event_page 0 = Ok r
    /\ display_secs r = Ok (VInt 2)
    /\ display_time Sample.datetime Sample.ReceiverTimeToTime r
       = Ok (Sample.ReceiverTimeToTime 5)
    /\ display_time Sample.datetime Sample.ReceiverTimeToTime r
       <> Ok (Sample.ReceiverTimeToTime 2).
Proof.
  eexists. split; [vm_compute; reflexivity|].
  split; [vm_compute; reflexivity|].
  split; [vm_compute; reflexivity|].
  vm_compute. discriminate.
Qed.

(** * Further properties of the decoders *)

(** ** Records in a page *)

Lemma pyslice_app_mid {A : Type} (pre rec post : list A) (s : Z) :
  0 <= s <= len rec ->
  pyslice (pre ++ rec ++ post) (Some (len pre)) (Some (len pre + s))
  = firstn (Z.to_nat s) rec.
Proof.
  intros Hs. pose proof (len_nonneg pre) as Hp.
  rewrite pyslice_within
    by (unfold len in *; rewrite ?length_app; lia).
  replace (len pre + s - len pre) with s by lia.
  unfold len in *. rewrite Nat2Z.id.
  rewrite skipn_app, Nat.sub_diag, skipn_all. cbn [app skipn].
  rewrite firstn_app.
  replace (Z.to_nat s - List.length rec)%nat with 0%nat by lia.
  cbn [firstn]. apply app_nil_r.
Qed.

Lemma pyslice_prefix {A : Type} (rec : list A) (s : Z) :
  0 <= s <= len rec ->
  pyslice rec (Some 0) (Some s) = firstn (Z.to_nat s) rec.
Proof.
  intros Hs. rewrite pyslice_within by lia.
  rewrite Z.sub_0_r. reflexivity.
Qed.

Section Pages.

Variable crc16 : list byte -> Z.

(** [Create] reads a page only through the slices that start at the
    offset of the record. *)
Lemma Create_ext (c : cls) (size : Z) (p1 p2 : list byte) (i1 i2 : Z) :
  _ClassSize c = Ok size ->
  (forall s, 0 <= s <= size ->
             pyslice p1 (Some (i1 * size)) (Some (i1 * size + s))
             = pyslice p2 (Some (i2 * size)) (Some (i2 * size + s))) ->
  Create crc16 c p1 i1 = Create crc16 c p2 i2.
Proof.
  intros Hsz H. destruct (is_calibration c) eqn:Hc.
  - assert (Hsize : 44 < size)
      by (destruct (calibration_size c size Hc Hsz) as [-> | ->]; reflexivity).
    rewrite !(Calibration_Create_eq crc16 c _ _ size Hc Hsz). cbv zeta.
    rewrite (H size) by lia.
    rewrite (H HEADER_SIZE) by (unfold HEADER_SIZE; lia). reflexivity.
  - unfold Create. rewrite Hc. unfold Base_Create. rewrite Hsz. cbn [bind].
    assert (0 <= size) as Hpos.
    { rewrite (_ClassSize_not_calibration c Hc) in Hsz.
      destruct (_ClassFormat c) as [st|]; [|discriminate].
      cbn [bind] in Hsz. injection Hsz as <-. unfold struct.size. lia. }
    rewrite (H size) by lia. reflexivity.
Qed.

(** X1.  Records lie back to back in a page: decoding the record at
    index [i] of a page reads the [i]-th block of [size] bytes and
    nothing else, so it gives what decoding that block alone gives. *)
Theorem Create_reads_its_block
        (c : cls) (size : Z) (pre rec post : list byte) (i : Z) :
  _ClassSize c = Ok size ->
  len pre = i * size ->
  len rec = size ->
  Create crc16 c (pre ++ rec ++ post) i = Create crc16 c rec 0.
Proof.
  intros Hsz Hpre Hrec. apply (Create_ext c size); [exact Hsz|].
  intros s Hs. rewrite <- Hpre, Z.mul_0_l, Z.add_0_l.
  rewrite pyslice_app_mid, pyslice_prefix by lia. reflexivity.
Qed.

(** [Create] of a fixed-layout class on any page and index. *)
Lemma Create_fixed_layout_any (c : cls) (fmt : string) (fs : list code)
      (page : list byte) (i : Z) :
  fixed_layout c = true ->
  _ClassFormat c = Ok (mkStruct fmt (fs ++ [c_uint16])) ->
  let size := Z.of_nat (fields_size fs + 2) in
  let raw := pyslice page (Some (i * size)) (Some (i * size + size)) in
  Create crc16 c page i
  = if len raw =? size
    then if crc16 (but_last2 raw) =? le_combine (last2 raw)
         then Ok (mkRecord c raw (unpack_fields (fs ++ [c_uint16]) raw) [])
         else Raise (CrcError ("Could not parse " ++ __name__ c)%string)
    else Raise (struct.error ("unpack requires a string argument of length "
                                ++ string_of_Z size)%string).
Proof.
  intros Hfix Hst size raw.
  pose proof (fixed_layout_not_calibration c Hfix) as Hc.
  assert (Hsize : struct.size (mkStruct fmt (fs ++ [c_uint16])) = size).
  { unfold struct.size, size. cbn [fields]. rewrite fields_size_app.
    reflexivity. }
  unfold Create. rewrite Hc. unfold Base_Create.
  rewrite (_ClassSize_not_calibration c Hc), Hst. cbn [bind].
  rewrite Hsize. fold raw. unfold struct.unpack. rewrite Hsize.
  destruct (Z.eqb_spec (len raw) size) as [Hlen|Hlen]; [|reflexivity].
  cbn [bind fields]. unfold __init__. rewrite Hc.
  unfold Base__init__, check_crc, crc, calculate_crc, field, crc_span.
  cbn [klass raw_data data]. rewrite Hc.
  rewrite unpack_last_H by (unfold len, size in Hlen; lia).
  cbn [bind int_ne].
  rewrite pyslice_but_last2 by (unfold size in Hlen; lia).
  fold (but_last2 raw) (last2 raw).
  destruct (crc16 (but_last2 raw) =? le_combine (last2 raw)); reflexivity.
Qed.

End Pages.

Lemma pyslice_len_le {A : Type} (l : list A) (a s : Z) :
  0 <= s -> len (pyslice l (Some a) (Some (a + s))) <= s.
Proof.
  intros Hs. pose proof (len_nonneg l) as Hn. unfold pyslice, clamp_index.
  set (n := len l) in *. unfold len. rewrite length_firstn.
  destruct (Z.ltb_spec a 0); destruct (Z.ltb_spec (a + s) 0); lia.
Qed.

(** Every class is abstract, fixed-layout or a Calibration. *)
Lemma cls_cases (c : cls) :
  FORMAT c = None \/ fixed_layout c = true \/ is_calibration c = true.
Proof. destruct c; auto. Qed.

Section DecodedRecords.

Variable crc16 : list byte -> Z.

(** The raw bytes of a decoded record are the slice of the page at the
    size of the class. *)
Lemma decoded_raw (c : cls) (page : list byte) (i : Z) (r : record) :
  Create crc16 c page i = Ok r ->
  exists size,
    _ClassSize c = Ok size
    /\ 0 <= size
    /\ klass r = c
    /\ raw_data r = pyslice page (Some (i * size)) (Some (i * size + size)).
Proof.
  intros HC. destruct (cls_cases c) as [Habs|[Hfix|Hcal]].
  - exfalso. exact (Create_abstract_class crc16 page i r c Habs HC).
  - destruct (fixed_layout_format c Hfix) as (fmt & fs & _ & Hst & Hsz).
    destruct (Create_fixed_layout_inv crc16 c _ page i r Hfix Hst HC)
      as (Hk & Hraw & Hlen & _).
    exists (Z.of_nat (fields_size fs + 2)).
    replace (struct.size (mkStruct fmt (fs ++ [c_uint16])))
      with (Z.of_nat (fields_size fs + 2)) in Hraw
      by (unfold struct.size; cbn [fields]; now rewrite fields_size_app).
    repeat split; auto. lia.
  - destruct (calibration_layout c Hcal) as (_ & _ & _ & Hsz).
    assert (exists size, _ClassSize c = Ok size /\ 0 <= size) as (size & Hsize & Hpos).
    { destruct Hsz; eexists; split; eauto; discriminate. }
    exists size. rewrite (Calibration_Create_eq crc16 c page i size Hcal Hsize) in HC.
    cbv zeta in HC.
    destruct (_ =? HEADER_SIZE); [|discriminate].
    destruct (_ && _); [discriminate|].
    destruct (check_crc _ _); [|discriminate]. cbn [bind] in HC.
    injection HC as <-. cbn [klass raw_data]. auto.
Qed.

(** X2.  Whatever the page and the index, every record that [Create]
    returns has at least two raw bytes, and the checksum of all of them
    but the final two is the little-endian integer in the final two. *)
Theorem decoded_checksum_invariant
        (c : cls) (page : list byte) (i : Z) (r : record) :
  Create crc16 c page i = Ok r ->
  2 <= len (raw_data r)
  /\ crc16 (but_last2 (raw_data r)) = le_combine (last2 (raw_data r)).
Proof.
  intros HC. destruct (cls_cases c) as [Habs|[Hfix|Hcal]].
  - exfalso. exact (Create_abstract_class crc16 page i r c Habs HC).
  - destruct (fixed_layout_format c Hfix) as (fmt & fs & _ & Hst & _).
    rewrite (Create_fixed_layout_any crc16 c fmt fs page i Hfix Hst) in HC.
    cbv zeta in HC.
    destruct (Z.eqb_spec (len (pyslice page
                (Some (i * Z.of_nat (fields_size fs + 2)))
                (Some (i * Z.of_nat (fields_size fs + 2)
                       + Z.of_nat (fields_size fs + 2)))))
              (Z.of_nat (fields_size fs + 2))) as [Hlen|]; [|discriminate].
    destruct (Z.eqb_spec (crc16 (but_last2 (pyslice page
                (Some (i * Z.of_nat (fields_size fs + 2)))
                (Some (i * Z.of_nat (fields_size fs + 2)
                       + Z.of_nat (fields_size fs + 2))))))
              (le_combine (last2 (pyslice page
                (Some (i * Z.of_nat (fields_size fs + 2)))
                (Some (i * Z.of_nat (fields_size fs + 2)
                       + Z.of_nat (fields_size fs + 2)))))))
      as [Hcrc|]; [|discriminate].
    injection HC as <-. cbn [raw_data]. split; [lia | exact Hcrc].
  - destruct (calibration_layout c Hcal) as (_ & _ & _ & Hsz).
    assert (exists size, _ClassSize c = Ok size) as [size Hsize]
        by (destruct Hsz; eauto).
    rewrite (Calibration_Create_eq crc16 c page i size Hcal Hsize) in HC.
    cbv zeta in HC.
    destruct (_ =? HEADER_SIZE); [|discriminate].
    destruct (_ && _); [discriminate|].
    set (raw := pyslice page (Some (i * size)) (Some (i * size + size))) in *.
    destruct (Z.le_gt_cases 2 (len raw)) as [Hlen|Hshort].
    + rewrite check_crc_calibration in HC by assumption.
      destruct (Z.eqb_spec (crc16 (but_last2 raw)) (le_combine (last2 raw)))
        as [Hcrc|]; [|discriminate].
      cbn [bind] in HC. injection HC as <-. cbn [raw_data]. auto.
    + rewrite crc_calibration_short in HC by (assumption || lia).
      discriminate.
Qed.


End DecodedRecords.

(** ** Sealing, short pages and bad indices *)

Section Edges.

Variable crc16 : list byte -> Z.

(** X3.  A fixed-layout record is accepted for exactly one pair of
    final bytes: when the checksum of the payload is a 16-bit value, the
    payload followed by two bytes decodes if and only if the two bytes
    are that checksum, low byte first; with any other pair [Create]
    raises [CrcError]. *)
Theorem sealed_record_decodes
        (c : cls) (size : Z) (payload trailer : list byte) :
  fixed_layout c = true ->
  _ClassSize c = Ok size ->
  len payload = size - 2 ->
  len trailer = 2 ->
  0 <= crc16 payload < 2 ^ 16 ->
  ((exists r, Create crc16 c (payload ++ trailer) 0 = Ok r
              /\ raw_data r = payload ++ trailer)
   <-> trailer = le_split 2 (crc16 payload))
  /\ (trailer <> le_split 2 (crc16 payload) ->
      Create crc16 c (payload ++ trailer) 0
      = Raise (CrcError ("Could not parse " ++ __name__ c)%string)).
Proof.
  intros Hfix Hsz Hpay Htr Hcrc.
  destruct (fixed_layout_format c Hfix) as (fmt & fs & _ & Hst & Hsz').
  rewrite Hsz' in Hsz. injection Hsz as Hsize.
  rewrite (Create_fixed_layout_any crc16 c fmt fs _ 0 Hfix Hst). cbv zeta.
  rewrite Hsize, Z.mul_0_l, Z.add_0_l.
  assert (Hlen : len (payload ++ trailer) = size)
    by (unfold len in *; rewrite length_app; lia).
  assert (Hraw : pyslice (payload ++ trailer) (Some 0) (Some size)
                 = payload ++ trailer).
  { rewrite pyslice_prefix by lia. apply firstn_all2. unfold len in Hlen. lia. }
  rewrite Hraw, Hlen, Z.eqb_refl.
  assert (Hb : but_last2 (payload ++ trailer) = payload).
  { unfold but_last2. rewrite length_app.
    replace (List.length payload + List.length trailer - 2)%nat
      with (List.length payload) by (unfold len in *; lia).
    rewrite firstn_app, Nat.sub_diag, firstn_all. cbn [firstn].
    apply app_nil_r. }
  assert (Hl : last2 (payload ++ trailer) = trailer).
  { unfold last2. rewrite length_app.
    replace (List.length payload + List.length trailer - 2)%nat
      with (List.length payload) by (unfold len in *; lia).
    rewrite skipn_app, Nat.sub_diag, skipn_all. reflexivity. }
  rewrite Hb, Hl.
  assert (Hiff : crc16 payload = le_combine trailer
                 <-> trailer = le_split 2 (crc16 payload)).
  { split.
    - intros ->. symmetry. apply split_le_combine'. unfold len in Htr. lia.
    - intros ->. rewrite le_combine_split. symmetry. apply Z.mod_small.
      exact Hcrc. }
  destruct (Z.eqb_spec (crc16 payload) (le_combine trailer)) as [Heq|Hne].
  - split.
    + split; [intros _; now apply Hiff | intros _; eexists; split; reflexivity].
    + intros Hne. exfalso. apply Hne. now apply Hiff.
  - split.
    + split; [intros (r & Hr & _); discriminate |].
      intros Heq. exfalso. apply Hne. now apply Hiff.
    + intros _. reflexivity.
Qed.

(** X4.  A page too short for the record at a non-negative index is
    never decoded in part: for a fixed-layout class [Create] raises the
    unpack error of the layout. *)
Theorem Create_short_page_raises
        (c : cls) (size : Z) (page : list byte) (i : Z) :
  fixed_layout c = true ->
  _ClassSize c = Ok size ->
  0 <= i ->
  len page < (i + 1) * size ->
  Create crc16 c page i
  = Raise (struct.error ("unpack requires a string argument of length "
                           ++ string_of_Z size)%string).
Proof.
  intros Hfix Hsz Hi Hshort.
  destruct (fixed_layout_format c Hfix) as (fmt & fs & _ & Hst & Hsz').
  rewrite Hsz' in Hsz. injection Hsz as Hsize.
  rewrite (Create_fixed_layout_any crc16 c fmt fs page i Hfix Hst). cbv zeta.
  rewrite Hsize.
  assert (len (pyslice page (Some (i * size)) (Some (i * size + size))) <> size)
    as Hne.
  { pose proof (len_nonneg page) as Hn.
    rewrite pyslice_nonneg_len by nia. nia. }
  apply Z.eqb_neq in Hne. rewrite Hne. reflexivity.
Qed.

(** X5.  Index -1 does not address the last record of a page: the slice
    from [-size] to 0 is empty, so [Create] raises the unpack error on
    every page. *)
Theorem Create_index_minus_one_raises
        (c : cls) (size : Z) (page : list byte) :
  fixed_layout c = true ->
  _ClassSize c = Ok size ->
  Create crc16 c page (-1)
  = Raise (struct.error ("unpack requires a string argument of length "
                           ++ string_of_Z size)%string).
Proof.
  intros Hfix Hsz.
  destruct (fixed_layout_format c Hfix) as (fmt & fs & _ & Hst & Hsz').
  rewrite Hsz' in Hsz. injection Hsz as Hsize.
  rewrite (Create_fixed_layout_any crc16 c fmt fs page (-1) Hfix Hst). cbv zeta.
  rewrite Hsize.
  assert (len (pyslice page (Some (-1 * size)) (Some (-1 * size + size))) <> size)
    as Hne.
  { pose proof (len_nonneg page) as Hn.
    replace (-1 * size + size) with 0 by lia.
    unfold pyslice, clamp_index. change (0 <? 0) with false. cbv iota.
    destruct (Z.ltb_spec (-1 * size) 0); [|lia].
    unfold len in *. rewrite length_firstn. lia. }
  apply Z.eqb_neq in Hne. rewrite Hne. reflexivity.
Qed.

(** X6.  A class that defines no FORMAT is never decoded: on every page
    and index [Create] raises [NotImplementedError], naming the class. *)
Theorem Create_without_FORMAT_raises (c : cls) (page : list byte) (i : Z) :
  FORMAT c = None ->
  Create crc16 c page i
  = Raise (NotImplementedError
             ("Subclasses of " ++ __name__ c ++ " need to define FORMAT")%string).
Proof.
  destruct c; try discriminate; intros _; reflexivity.
Qed.

(** X8.  The record size of a Calibration is an upper bound only: a page
    that ends before the record size but holds the header, two bytes more
    and every declared sub-record is decoded whole, its checksum taken
    from its own final two bytes. *)
Theorem Calibration_short_page_decodes
        (c : cls) (size : Z) (page : list byte) :
  is_calibration c = true ->
  _ClassSize c = Ok size ->
  HEADER_SIZE + 2 <= len page <= size ->
  declared_count page <= 0
  \/ HEADER_SIZE + declared_count page * SUBCAL_SIZE <= len page ->
  ((exists r, Create crc16 c page 0 = Ok r /\ raw_data r = page)
   <-> crc16 (but_last2 page) = le_combine (last2 page))
  /\ (crc16 (but_last2 page) <> le_combine (last2 page) ->
      Create crc16 c page 0
      = Raise (CrcError ("Could not parse " ++ __name__ c)%string)).
Proof.
  intros Hc Hsz Hlen Hfit. unfold HEADER_SIZE, SUBCAL_SIZE in *.
  rewrite (Calibration_Create_eq crc16 c page 0 size Hc Hsz). cbv zeta.
  rewrite Z.mul_0_l, !Z.add_0_l. unfold HEADER_SIZE, SUBCAL_SIZE.
  assert (Hraw : pyslice page (Some 0) (Some size) = page).
  { rewrite pyslice_nonneg by lia. rewrite Z.min_l, Z.max_r, Z.min_r by lia.
    rewrite pyslice_prefix by lia. apply firstn_all2. unfold len. lia. }
  rewrite Hraw.
  assert (Hcal : pyslice page (Some 0) (Some 44) = firstn 44 page)
    by (apply pyslice_prefix; lia).
  rewrite Hcal.
  assert (len (firstn 44 page) = 44) as ->
      by (unfold len in *; rewrite length_firstn; lia).
  rewrite Z.eqb_refl. unfold declared_count in *.
  rewrite !uint_at_firstn by lia.
  assert ((0 <? to_signed 8 (uint_at page 43 1))
          && (len page <? 44 + to_signed 8 (uint_at page 43 1) * 17) = false) as ->.
  { destruct (Z.ltb_spec 0 (to_signed 8 (uint_at page 43 1))); [|reflexivity].
    destruct (Z.ltb_spec (len page) (44 + to_signed 8 (uint_at page 43 1) * 17));
      [lia | reflexivity]. }
  rewrite check_crc_calibration by (assumption || lia).
  destruct (Z.eqb_spec (crc16 (but_last2 page)) (le_combine (last2 page)))
    as [Heq|Hne]; cbn [bind].
  - split; [|intros; contradiction].
    split; [intros _; exact Heq | intros _; eexists; split; reflexivity].
  - split; [|intros _; reflexivity].
    split; [intros (r & Hr & _); discriminate | intros; contradiction].
Qed.

End Edges.

(** ** Ranges and limits *)

Lemma uint_at_bound (raw : list byte) (off n : nat) :
  0 <= uint_at raw off n < 2 ^ (8 * Z.of_nat n).
Proof.
  unfold uint_at.
  pose proof (le_combine_bound (firstn n (skipn off raw))) as [Hlo Hhi].
  split; [exact Hlo|]. eapply Z.lt_le_trans; [exact Hhi|].
  apply Z.pow_le_mono_r; [lia|].
  pose proof (firstn_le_length n (skipn off raw)). lia.
Qed.

Section Ranges.

Variable crc16 : list byte -> Z.

(** The two leading fields of a decoded record, read from the bytes its
    tuple was unpacked from. *)
Lemma decoded_secs (c : cls) (page : list byte) (i : Z) (r : record) :
  Create crc16 c page i = Ok r ->
  exists bs,
    system_secs r = Ok (VInt (uint_at bs 0 4))
    /\ display_secs r = Ok (VInt (uint_at bs 4 4)).
Proof.
  intros HC. destruct (cls_cases c) as [Habs|[Hfix|Hcal]].
  - exfalso. exact (Create_abstract_class crc16 page i r c Habs HC).
  - exists (raw_data r).
    destruct c; try discriminate Hfix; decoded HC Hk Hlen Hd;
      unfold system_secs, display_secs; rewrite Hk;
      read_field Hd 0 c_uint32 0%nat; read_field Hd 1 c_uint32 4%nat;
      split; reflexivity.
  - destruct (Calibration_Create_inv crc16 c page i r Hcal HC)
      as (cal_data & Hk & _ & Hd & _).
    exists cal_data. unfold system_secs, display_secs, field. rewrite Hk, Hd.
    rewrite (unpacked_at Calibration_fields cal_data 0 c_uint32 0%nat
               ltac:(lia) eq_refl eq_refl).
    rewrite (unpacked_at Calibration_fields cal_data 1 c_uint32 4%nat
               ltac:(lia) eq_refl eq_refl).
    destruct c; try discriminate Hcal; split; reflexivity.
Qed.

(** X9.  In every decoded record, of every class, the system seconds
    and the display seconds are integers between 0 and 2^32 - 1. *)
Theorem seconds_are_32_bit (c : cls) (page : list byte) (i : Z) (r : record) :
  Create crc16 c page i = Ok r ->
  exists s d,
    system_secs r = Ok (VInt s)
    /\ display_secs r = Ok (VInt d)
    /\ 0 <= s < 2 ^ 32
    /\ 0 <= d < 2 ^ 32.
Proof.
  intros HC. destruct (decoded_secs c page i r HC) as (bs & Hs & Hd).
  exists (uint_at bs 0 4), (uint_at bs 4 4).
  repeat split; auto; apply (uint_at_bound bs _ 4).
Qed.

(** X10.  A decoded revision-2 Calibration holds at most 12 sub-records
    and a decoded legacy Calibration at most 6: a larger count does not
    fit the record and is not decoded. *)
Theorem Calibration_subrecord_limit
        (c : cls) (page : list byte) (i : Z) (r : record) :
  Create crc16 c page i = Ok r ->
  (c = Calibration -> (List.length (subcals r) <= 12)%nat)
  /\ (c = LegacyCalibration -> (List.length (subcals r) <= 6)%nat).
Proof.
  intros HC.
  assert (forall size, is_calibration c = true -> _ClassSize c = Ok size ->
                       Z.of_nat (List.length (subcals r)) * 17 <= Z.max 0 (size - 44))
    as Hlim.
  { intros size Hcal Hsz.
    destruct (Calibration_Create_inv crc16 c page i r Hcal HC)
      as (cal_data & _ & _ & _ & Hsubs & Hfit).
    destruct (decoded_raw crc16 c page i r HC) as (size' & Hsz' & Hpos & _ & Hraw).
    rewrite Hsz in Hsz'. injection Hsz' as <-.
    pose proof (pyslice_len_le page (i * size) size Hpos) as Hle.
    rewrite <- Hraw in Hle. cbv zeta in Hsubs, Hfit.
    rewrite Hsubs, length_map, xrange_length.
    unfold HEADER_SIZE, SUBCAL_SIZE in Hfit. lia. }
  split; intros ->.
  - specialize (Hlim REV_2_SIZE eq_refl eq_refl). unfold REV_2_SIZE in Hlim. lia.
  - specialize (Hlim LEGACY_SIZE eq_refl eq_refl). unfold LEGACY_SIZE in Hlim. lia.
Qed.

(** X11.  Every sub-record of a decoded Calibration carries, as its
    display offset, the display seconds of the Calibration. *)
Theorem SubCal_displayOffset_is_display_secs
        (c : cls) (page : list byte) (i : Z) (r : record) (s : SubCal.t) :
  is_calibration c = true ->
  Create crc16 c page i = Ok r ->
  In s (subcals r) ->
  display_secs r = Ok (SubCal.displayOffset s).
Proof.
  intros Hcal HC Hin.
  destruct (Calibration_Create_inv crc16 c page i r Hcal HC)
    as (cal_data & Hk & _ & Hd & Hsubs & _).
  cbv zeta in Hsubs. rewrite Hsubs in Hin. apply in_map_iff in Hin.
  destruct Hin as (j & <- & _). unfold sub_record. cbn [SubCal.displayOffset].
  unfold display_secs, field. rewrite Hk, Hd.
  rewrite (unpacked_at Calibration_fields cal_data 1 c_uint32 4%nat
             ltac:(lia) eq_refl eq_refl).
  destruct c; try discriminate Hcal; reflexivity.
Qed.

End Ranges.

(** ** The XML record and the user settings *)

Lemma strip_nul_no_nul (s : list byte) : ~ In Byte.x00 (strip_nul s).
Proof.
  unfold strip_nul. intros H. apply filter_In in H. destruct H as [_ H].
  discriminate H.
Qed.

Lemma strip_nul_id (s : list byte) : ~ In Byte.x00 s -> strip_nul s = s.
Proof.
  induction s as [|b s IH]; intros H; [reflexivity|].
  cbn [strip_nul filter]. fold (strip_nul s).
  destruct (Byte.eqb b Byte.x00) eqn:E.
  - exfalso. apply H. left. symmetry. now apply Byte.byte_dec_bl.
  - cbn [negb]. rewrite IH; [reflexivity|]. intros Hin. apply H. now right.
Qed.

(** A slice inside the first [m] elements can be read from them. *)
Lemma slice_of_firstn {A : Type} (l : list A) (m off n : nat) :
  (off + n <= m)%nat ->
  firstn n (skipn off l) = firstn n (skipn off (firstn m l)).
Proof.
  intros H. rewrite skipn_firstn_comm, firstn_firstn. f_equal. lia.
Qed.

Section XMLAndSettings.

Variable crc16 : list byte -> Z.

(** X12.  [xmldata] of a decoded GenericXMLRecord is the 490 bytes at
    offset 8 with every NUL byte removed: it holds no NUL byte, is at
    most 490 bytes long, and is the field itself when the field has no
    NUL byte. *)
Theorem xmldata_strips_nul (page : list byte) (i : Z) (r : record) :
  Create crc16 GenericXMLRecord page i = Ok r ->
  let text := firstn 490 (skipn 8 (raw_data r)) in
  exists s,
    xmldata r = Ok s
    /\ s = strip_nul text
    /\ ~ In Byte.x00 s
    /\ (List.length s <= 490)%nat
    /\ (~ In Byte.x00 text -> s = text).
Proof.
  intros HC text. decoded HC Hk Hlen Hd.
  exists (strip_nul text). unfold xmldata. rewrite Hk.
  read_field Hd 2 (c_str 490) 8%nat. fold text.
  split; [reflexivity|]. split; [reflexivity|].
  split; [apply strip_nul_no_nul|]. split; [|apply strip_nul_id].
  unfold strip_nul. etransitivity; [apply filter_length_le|].
  unfold text. apply firstn_le_length.
Qed.

(** X13.  The two generations of user settings keep their shared
    settings at the same places: a decoded G5UserSettings and a decoded
    G6UserSettings whose first 43 bytes are equal agree on the paired
    transmitter, on the six alert settings, on the out-of-range alert
    and on the sound type. *)
Theorem UserSettings_shared_layout
        (p5 p6 : list byte) (i5 i6 : Z) (r5 r6 : record) :
  Create crc16 G5UserSettings p5 i5 = Ok r5 ->
  Create crc16 G6UserSettings p6 i6 = Ok r6 ->
  firstn 43 (raw_data r5) = firstn 43 (raw_data r6) ->
  transmitterPaired r5 = transmitterPaired r6
  /\ highAlert r5 = highAlert r6
  /\ highRepeat r5 = highRepeat r6
  /\ lowAlert r5 = lowAlert r6
  /\ lowRepeat r5 = lowRepeat r6
  /\ riseRate r5 = riseRate r6
  /\ fallRate r5 = fallRate r6
  /\ outOfRangeAlert r5 = outOfRangeAlert r6
  /\ soundsType r5 = soundsType r6.
Proof.
  intros H5 H6 Heq.
  decoded H5 Hk5 Hlen5 Hd5. decoded H6 Hk6 Hlen6 Hd6.
  unfold transmitterPaired, highAlert, highRepeat, lowAlert, lowRepeat,
    riseRate, fallRate, outOfRangeAlert, soundsType, settings_field.
  rewrite Hk5, Hk6.
  read_field Hd5 4 (c_str 6) 16%nat. read_field Hd6 4 (c_str 6) 16%nat.
  read_field Hd5 6 c_uint16 26%nat. read_field Hd6 6 c_uint16 26%nat.
  read_field Hd5 7 c_uint16 28%nat. read_field Hd6 7 c_uint16 28%nat.
  read_field Hd5 8 c_uint16 30%nat. read_field Hd6 8 c_uint16 30%nat.
  read_field Hd5 9 c_uint16 32%nat. read_field Hd6 9 c_uint16 32%nat.
  read_field Hd5 10 c_uint16 34%nat. read_field Hd6 10 c_uint16 34%nat.
  read_field Hd5 11 c_uint16 36%nat. read_field Hd6 11 c_uint16 36%nat.
  read_field Hd5 12 c_uint16 38%nat. read_field Hd6 12 c_uint16 38%nat.
  read_field Hd5 14 c_uint8 42%nat. read_field Hd6 14 c_uint8 42%nat.
  rewrite !(slice_of_firstn (raw_data r5) 43) by lia.
  rewrite !(slice_of_firstn (raw_data r6) 43) by lia.
  rewrite Heq. repeat split.
Qed.

End XMLAndSettings.

(** ** Exports of the fixed-layout records *)

Lemma land_bounds (a b : Z) :
  0 <= a -> 0 <= b -> 0 <= Z.land a b /\ Z.land a b <= a /\ Z.land a b <= b.
Proof.
  intros Ha Hb. rewrite <- (Z2N.id a), <- (Z2N.id b) by assumption.
  rewrite <- N2Z.inj_land.
  pose proof (N.land_le_l (Z.to_N a) (Z.to_N b)).
  pose proof (N.land_le_r (Z.to_N a) (Z.to_N b)). lia.
Qed.

Lemma to_signed_16_bound (u : Z) :
  0 <= u < 2 ^ 16 -> - 2 ^ 15 <= to_signed 16 u < 2 ^ 15.
Proof.
  intros H. unfold to_signed. change (2 ^ (16 - 1)) with (2 ^ 15).
  destruct (Z.ltb_spec u (2 ^ 15)); lia.
Qed.

Section Exports.

Variable crc16 : list byte -> Z.
Variable datetime : Type.
Variable ReceiverTimeToTime : Z -> datetime.
Variable isoformat : datetime -> string.
Variable EGV_DISPLAY_ONLY_MASK : Z.
Variable EGV_VALUE_MASK : Z.
Variable EGV_TREND_ARROW_MASK : Z.
Variable TREND_ARROW_VALUES : Z -> result pyobj.
Variable SPECIAL_GLUCOSE_VALUES : Z -> option pyobj.

(** X14.  The export of a G5MeterRecord always fails: its field list
    names [meter_time], which the class does not define, so [to_dict]
    raises [AttributeError] on every decoded record. *)
Theorem G5MeterRecord_to_dict_raises (page : list byte) (i : Z) (r : record) :
  Create crc16 G5MeterRecord page i = Ok r ->
  to_dict datetime ReceiverTimeToTime isoformat EGV_VALUE_MASK
          EGV_TREND_ARROW_MASK TREND_ARROW_VALUES r
  = Raise (AttributeError G5MeterRecord "meter_time").
Proof.
  intros HC. decoded HC Hk Hlen Hd.
  unfold to_dict. rewrite Hk. cbn [is_calibration FIELDS BASE_FIELDS app to_dict_loop].
  unfold getattr. rewrite Hk. cbn [is_calibration String.eqb Ascii.eqb Bool.eqb].
  unfold system_time, display_time, calib_gluc, record_type, meter_time.
  rewrite Hk.
  read_field Hd 0 c_uint32 0%nat. read_field Hd 1 c_uint32 4%nat.
  read_field Hd 2 c_uint16 8%nat. read_field Hd 3 c_uint8 10%nat.
  reflexivity.
Qed.

(** X15.  The export of a decoded MeterRecord never fails: it holds the
    two timestamps, the calibration glucose (the 16-bit value at offset
    8) and the meter time (the conversion of the seconds at offset 10),
    each time in ISO format. *)
Theorem MeterRecord_to_dict (page : list byte) (i : Z) (r : record) :
  Create crc16 MeterRecord page i = Ok r ->
  let raw := raw_data r in
  to_dict datetime ReceiverTimeToTime isoformat EGV_VALUE_MASK
          EGV_TREND_ARROW_MASK TREND_ARROW_VALUES r
  = Ok [("system_time", OText (isoformat (ReceiverTimeToTime (uint_at raw 0 4))));
        ("display_time", OText (isoformat (ReceiverTimeToTime (uint_at raw 4 4))));
        ("calib_gluc", OInt (uint_at raw 8 2));
        ("meter_time", OText (isoformat (ReceiverTimeToTime (uint_at raw 10 4))))].
Proof.
  intros HC raw. decoded HC Hk Hlen Hd.
  unfold to_dict. rewrite Hk. cbn [is_calibration FIELDS BASE_FIELDS app to_dict_loop].
  unfold getattr. rewrite Hk. cbn [is_calibration String.eqb Ascii.eqb Bool.eqb].
  unfold system_time, display_time, calib_gluc, meter_time.
  rewrite Hk.
  read_field Hd 0 c_uint32 0%nat. read_field Hd 1 c_uint32 4%nat.
  read_field Hd 2 c_uint16 8%nat. read_field Hd 3 c_uint32 10%nat.
  reflexivity.
Qed.

(** X16.  The export of a decoded SensorRecord never fails: it holds the
    two timestamps, the unfiltered and the filtered signal (offsets 8
    and 12) and the signal strength, the 16-bit value at offset 16 read
    as a signed integer, between -32768 and 32767. *)
Theorem SensorRecord_to_dict (page : list byte) (i : Z) (r : record) :
  Create crc16 SensorRecord page i = Ok r ->
  let raw := raw_data r in
  let strength := to_signed 16 (uint_at raw 16 2) in
  to_dict datetime ReceiverTimeToTime isoformat EGV_VALUE_MASK
          EGV_TREND_ARROW_MASK TREND_ARROW_VALUES r
  = Ok [("system_time", OText (isoformat (ReceiverTimeToTime (uint_at raw 0 4))));
        ("display_time", OText (isoformat (ReceiverTimeToTime (uint_at raw 4 4))));
        ("unfiltered", OInt (uint_at raw 8 4));
        ("filtered", OInt (uint_at raw 12 4));
        ("rssi", OInt strength)]
  /\ rssi r = Ok (VInt strength)
  /\ - 2 ^ 15 <= strength < 2 ^ 15.
Proof.
  intros HC raw strength. decoded HC Hk Hlen Hd.
  unfold to_dict. rewrite Hk. cbn [is_calibration FIELDS BASE_FIELDS app to_dict_loop].
  unfold getattr. rewrite Hk. cbn [is_calibration String.eqb Ascii.eqb Bool.eqb].
  unfold system_time, display_time, unfiltered, filtered, rssi.
  rewrite Hk.
  read_field Hd 0 c_uint32 0%nat. read_field Hd 1 c_uint32 4%nat.
  read_field Hd 2 c_uint32 8%nat. read_field Hd 3 c_uint32 12%nat.
  read_field Hd 4 c_int16 16%nat.
  split; [reflexivity|]. split; [reflexivity|].
  apply to_signed_16_bound, (uint_at_bound raw 16 2).
Qed.

(** X17.  The export of a decoded InsertionRecord or G5InsertionRecord
    fails exactly when its session-state byte, at offset 12, is past the
    table of states: then [to_dict] raises [IndexError]; otherwise it
    holds the two timestamps, the insertion time and the state, [None]
    for state 0. *)
Theorem InsertionRecord_to_dict (c : cls) (page : list byte) (i : Z) (r : record) :
  is_insertion c = true ->
  Create crc16 c page i = Ok r ->
  let raw := raw_data r in
  let s := uint_at raw 12 1 in
  (len states <= s ->
   to_dict datetime ReceiverTimeToTime isoformat EGV_VALUE_MASK
           EGV_TREND_ARROW_MASK TREND_ARROW_VALUES r
   = Raise (IndexError "list"))
  /\ (s < len states ->
      exists t,
        insertion_time datetime ReceiverTimeToTime r = Ok t
        /\ to_dict datetime ReceiverTimeToTime isoformat EGV_VALUE_MASK
                   EGV_TREND_ARROW_MASK TREND_ARROW_VALUES r
           = Ok [("system_time",
                  OText (isoformat (ReceiverTimeToTime (uint_at raw 0 4))));
                 ("display_time",
                  OText (isoformat (ReceiverTimeToTime (uint_at raw 4 4))));
                 ("insertion_time", OText (isoformat t));
                 ("session_state",
                  obj_of_symbol (nth (Z.to_nat s) states None))]).
Proof.
  intros Hc HC raw s.
  pose proof (uint_at_nonneg raw 12 1) as Hs. fold s in Hs.
  assert (Hins : exists t, insertion_time datetime ReceiverTimeToTime r = Ok t).
  { destruct c; try discriminate Hc; decoded HC Hk Hlen Hd;
      unfold insertion_time, system_time; rewrite Hk; cbn [is_insertion];
      read_field Hd 2 c_uint32 8%nat; read_field Hd 0 c_uint32 0%nat;
      cbn [time_of as_int bind];
      destruct (eq_int _ _); eexists; reflexivity. }
  destruct Hins as [t Ht].
  assert (Hdict :
    to_dict datetime ReceiverTimeToTime isoformat EGV_VALUE_MASK
            EGV_TREND_ARROW_MASK TREND_ARROW_VALUES r
    = (o <- pyindex "list" states s ;;
       Ok [("system_time",
            OText (isoformat (ReceiverTimeToTime (uint_at raw 0 4))));
           ("display_time",
            OText (isoformat (ReceiverTimeToTime (uint_at raw 4 4))));
           ("insertion_time", OText (isoformat t));
           ("session_state", obj_of_symbol o)])).
  { destruct c; try discriminate Hc; decoded HC Hk Hlen Hd;
      unfold to_dict; rewrite Hk;
      cbn [is_calibration FIELDS BASE_FIELDS app to_dict_loop];
      unfold getattr; rewrite Hk;
      cbn [is_calibration String.eqb Ascii.eqb Bool.eqb];
      rewrite Ht; unfold system_time, display_time, session_state;
      rewrite Hk; cbn [is_insertion];
      read_field Hd 0 c_uint32 0%nat; read_field Hd 1 c_uint32 4%nat;
      read_field Hd 3 c_uint8 12%nat;
      fold (uint_at (raw_data r) 12 1); fold raw; fold s;
      cbn [time_of as_int as_time as_symbol bind export];
      destruct (pyindex "list" states s); reflexivity. }
  rewrite Hdict. split; intros H.
  - rewrite (pyindex_out_of_range "list" states s H). reflexivity.
  - exists t. split; [exact Ht|].
    rewrite (pyindex_in_range "list" states s None) by lia. reflexivity.
Qed.

(** X18.  GenericXMLRecord and the two user settings records list no
    fields of their own: their export holds the two timestamps and
    nothing else, none of the settings and not the XML text. *)
Theorem to_dict_base_fields_only (c : cls) (page : list byte) (i : Z) (r : record) :
  c = GenericXMLRecord \/ c = G5UserSettings \/ c = G6UserSettings ->
  Create crc16 c page i = Ok r ->
  to_dict datetime ReceiverTimeToTime isoformat EGV_VALUE_MASK
          EGV_TREND_ARROW_MASK TREND_ARROW_VALUES r
  = Ok [("system_time",
         OText (isoformat (ReceiverTimeToTime (uint_at (raw_data r) 0 4))));
        ("display_time",
         OText (isoformat (ReceiverTimeToTime (uint_at (raw_data r) 4 4))))].
Proof.
  intros Hc HC.
  destruct Hc as [-> | [-> | ->]]; decoded HC Hk Hlen Hd;
    unfold to_dict; rewrite Hk;
    cbn [is_calibration FIELDS BASE_FIELDS app to_dict_loop];
    unfold getattr; rewrite Hk;
    cbn [is_calibration String.eqb Ascii.eqb Bool.eqb];
    unfold system_time, display_time; rewrite Hk;
    read_field Hd 0 c_uint32 0%nat; read_field Hd 1 c_uint32 4%nat;
    reflexivity.
Qed.

(** X19.  The export of a decoded glucose record holds the glucose
    value, the 16-bit field at offset 8 masked with [EGV_VALUE_MASK], and
    the trend symbol that the trend table gives for the masked trend
    byte, which EGVRecord reads at offset 10 and the G5 and G6 records
    at offset 19; it fails exactly when that table lookup fails.  For a
    mask that is not negative the glucose value lies between 0 and the
    mask and does not exceed the raw field. *)
Theorem EGV_to_dict (c : cls) (page : list byte) (i : Z) (r : record) :
  c = EGVRecord \/ c = G5EGVRecord \/ c = G6EGVRecord ->
  Create crc16 c page i = Ok r ->
  0 <= EGV_VALUE_MASK ->
  let raw := raw_data r in
  let g := Z.land (uint_at raw 8 2) EGV_VALUE_MASK in
  let trend :=
    match c with EGVRecord => uint_at raw 10 1 | _ => uint_at raw 19 1 end in
  glucose EGV_VALUE_MASK r = Ok g
  /\ 0 <= g <= EGV_VALUE_MASK
  /\ g <= uint_at raw 8 2
  /\ to_dict datetime ReceiverTimeToTime isoformat EGV_VALUE_MASK
             EGV_TREND_ARROW_MASK TREND_ARROW_VALUES r
     = (arrow <- TREND_ARROW_VALUES (Z.land trend EGV_TREND_ARROW_MASK) ;;
        Ok [("system_time",
             OText (isoformat (ReceiverTimeToTime (uint_at raw 0 4))));
            ("display_time",
             OText (isoformat (ReceiverTimeToTime (uint_at raw 4 4))));
            ("glucose", OInt g);
            ("trend_arrow", arrow)]).
Proof.
  intros Hc HC Hmask raw g trend.
  pose proof (land_bounds (uint_at raw 8 2) EGV_VALUE_MASK
                (uint_at_nonneg raw 8 2) Hmask) as (Hg0 & Hg1 & Hg2).
  fold g in Hg0, Hg1, Hg2.
  destruct Hc as [-> | [-> | ->]]; decoded HC Hk Hlen Hd;
    (split; [unfold glucose, full_glucose; rewrite Hk;
             read_field Hd 2 c_uint16 8%nat; reflexivity|]);
    (split; [lia|]); (split; [lia|]);
    unfold to_dict; rewrite Hk;
    cbn [is_calibration FIELDS BASE_FIELDS app to_dict_loop];
    unfold getattr; rewrite Hk;
    cbn [is_calibration String.eqb Ascii.eqb Bool.eqb];
    unfold system_time, display_time, glucose, trend_arrow,
      full_glucose, full_trend;
    rewrite Hk;
    read_field Hd 0 c_uint32 0%nat; read_field Hd 1 c_uint32 4%nat;
    read_field Hd 2 c_uint16 8%nat;
    first [read_field Hd 3 c_uint8 10%nat | read_field Hd 6 c_uint8 19%nat];
    cbn [time_of as_int as_time as_num as_obj bind export];
    fold (uint_at (raw_data r) 10 1) (uint_at (raw_data r) 19 1);
    fold raw; fold trend;
    destruct (TREND_ARROW_VALUES _); reflexivity.
Qed.

(** X20.  [event_value] of a decoded EventRecord is the 32-bit value at
    offset 14 as it is for every category of the table but INSULIN
    (category 2), for which it is the binary64 quotient of that value by
    100.0; for a category past the table it raises [IndexError]. *)
Theorem event_value_by_category (page : list byte) (i : Z) (r : record) :
  Create crc16 EventRecord page i = Ok r ->
  let t := uint_at (raw_data r) 8 1 in
  let v := uint_at (raw_data r) 14 4 in
  (t = 2 ->
   event_value r
   = Ok (OFloat (binary64_bits
                   (SpecFloat.SFdiv 53 1024 (binary64_of_int v)
                                    (binary64_of_int 100)))))
  /\ (t < len event_types -> t <> 2 -> event_value r = Ok (OInt v))
  /\ (len event_types <= t -> event_value r = Raise (IndexError "list")).
Proof.
  intros HC t v. pose proof (uint_at_nonneg (raw_data r) 8 1) as Ht. fold t in Ht.
  decoded HC Hk Hlen Hd.
  unfold event_value, event_type. rewrite Hk.
  read_field Hd 5 c_uint32 14%nat. read_field Hd 2 c_uint8 8%nat.
  fold (uint_at (raw_data r) 8 1) (uint_at (raw_data r) 14 4). fold t v.
  cbn [as_int bind]. split; [|split].
  - intros ->. reflexivity.
  - intros Hlt Hne. rewrite (pyindex_in_range "list" event_types t None) by lia.
    cbn [bind].
    assert (t = 0 \/ t = 1 \/ t = 3 \/ t = 4 \/ t = 5) as Hcases
        by (change (len event_types) with 6 in Hlt; lia).
    destruct Hcases as [-> | [-> | [-> | [-> | ->]]]]; reflexivity.
  - intros Hge. rewrite (pyindex_out_of_range "list" event_types t Hge).
    reflexivity.
Qed.

End Exports.

(** ** Hexadecimal renderings *)

Lemma hex_digit_code (n : Z) :
  0 <= n < 16 ->
  nat_of_ascii (hex_digit n) = Z.to_nat (if n <? 10 then 48 + n else 87 + n).
Proof.
  intros H. unfold hex_digit. apply nat_ascii_embedding.
  destruct (Z.ltb_spec n 10); lia.
Qed.

Lemma hex_digit_inj (a b : Z) :
  0 <= a < 16 -> 0 <= b < 16 -> hex_digit a = hex_digit b -> a = b.
Proof.
  intros Ha Hb H. apply (f_equal nat_of_ascii) in H.
  rewrite !hex_digit_code in H by assumption.
  destruct (Z.ltb_spec a 10), (Z.ltb_spec b 10); lia.
Qed.

Lemma hex_digit_not_space (n : Z) :
  0 <= n < 16 -> Ascii.eqb (hex_digit n) " " = false.
Proof.
  intros H. apply Ascii.eqb_neq. intros E.
  apply (f_equal nat_of_ascii) in E. rewrite hex_digit_code in E by assumption.
  change (nat_of_ascii " ") with 32%nat in E.
  destruct (Z.ltb_spec n 10); lia.
Qed.

Lemma nibbles (b : byte) :
  0 <= byte.unsigned b / 16 < 16 /\ 0 <= byte.unsigned b mod 16 < 16.
Proof.
  pose proof (byte.unsigned_range b) as H. change (2 ^ 8) with 256 in H.
  split.
  - split; [apply Z.div_pos; lia | apply Z.div_lt_upper_bound; lia].
  - apply Z.mod_pos_bound. lia.
Qed.

(** X21.  The hexadecimal text that a Calibration exports under [raw]
    loses nothing: it has two characters for every raw byte, and two
    byte strings with the same text are equal. *)
Theorem hexlify_injective (a b : list byte) :
  hexlify a = hexlify b ->
  a = b /\ String.length (hexlify a) = (2 * List.length a)%nat.
Proof.
  intros H. split.
  - revert b H. induction a as [|x a IH]; intros [|y b] H;
      try discriminate; [reflexivity|].
    cbn [hexlify] in H. injection H as H1 H2 H3.
    destruct (nibbles x) as [Hx1 Hx2], (nibbles y) as [Hy1 Hy2].
    apply hex_digit_inj in H1; [|assumption..].
    apply hex_digit_inj in H2; [|assumption..].
    f_equal; [|now apply IH].
    apply byte.unsigned_inj.
    rewrite (Z.div_mod (byte.unsigned x) 16), (Z.div_mod (byte.unsigned y) 16)
      by lia.
    now rewrite H1, H2.
  - clear H. induction a as [|x a IH]; [reflexivity|].
    cbn [hexlify String.length List.length]. rewrite IH. lia.
Qed.

(** X22.  [dump] renders the raw bytes as [raw] does, with a space
    before every byte: three characters for every byte, and the text of
    [raw] once the spaces are taken out. *)
Theorem dump_is_spaced_hexlify (r : record) :
  without_spaces (dump r) = raw r
  /\ String.length (dump r) = (3 * List.length (raw_data r))%nat.
Proof.
  unfold dump, raw. generalize (raw_data r) as bs.
  induction bs as [|b bs [IH1 IH2]]; [split; reflexivity|].
  destruct (nibbles b) as [H1 H2].
  cbn [dump_bytes hexlify without_spaces String.length List.length].
  change (Ascii.eqb " " " ") with true. cbv iota.
  rewrite (hex_digit_not_space _ H1), (hex_digit_not_space _ H2), IH1, IH2.
  split; [reflexivity | lia].
Qed.

(** ** The properties on sample pages *)

(** Decodes a sample page: leaves [HC], the equation of [Create] with
    the record it returns, and the goal about that record. *)
Ltac sample_record HC c page i :=
  eexists; split; [vm_compute; reflexivity|];
  match goal with
  | |- context [mkRecord ?a ?b ?d ?e] =>
      assert (HC : Create Sample.crc16 c page i = Ok (mkRecord a b d e))
        by (vm_compute; reflexivity)
  end.

Lemma Create_reads_its_block_witness :
  Create Sample.crc16 InsertionRecord
         (Sample.insertion_page_state18 ++ Sample.insertion_page ++ []) 1
  = Create Sample.crc16 InsertionRecord Sample.insertion_page 0.
Proof.
  apply (Create_reads_its_block Sample.crc16 InsertionRecord 15); reflexivity.
Defined.

Lemma decoded_checksum_invariant_witness :
  exists r,
    Sample.Create InsertionRecord Sample.insertion_page 0 = Ok r
    /\ 2 <= len (raw_data r)
    /\ Sample.crc16 (but_last2 (raw_data r)) = le_combine (last2 (raw_data r)).
Proof.
  sample_record HC InsertionRecord Sample.insertion_page 0.
  exact (decoded_checksum_invariant Sample.crc16 _ _ _ _ HC).
Defined.


Lemma sealed_record_decodes_witness :
  exists r,
    Create Sample.crc16 InsertionRecord
           (firstn 13 Sample.insertion_page
            ++ le_split 2 (Sample.crc16 (firstn 13 Sample.insertion_page))) 0
    = Ok r
    /\ raw_data r
       = firstn 13 Sample.insertion_page
         ++ le_split 2 (Sample.crc16 (firstn 13 Sample.insertion_page)).
Proof.
  refine (proj2 (proj1 (sealed_record_decodes Sample.crc16 InsertionRecord 15
                          (firstn 13 Sample.insertion_page)
                          (le_split 2 (Sample.crc16
                                         (firstn 13 Sample.insertion_page)))
                          eq_refl eq_refl eq_refl eq_refl _)) eq_refl).
  vm_compute. split; [discriminate | reflexivity].
Defined.

Lemma Create_short_page_raises_witness :
  Create Sample.crc16 InsertionRecord [] 0
  = Raise (struct.error "unpack requires a string argument of length 15").
Proof.
  apply (Create_short_page_raises Sample.crc16 InsertionRecord 15 [] 0);
    [reflexivity | reflexivity | lia | reflexivity].
Defined.

Lemma Create_index_minus_one_raises_witness :
  Create Sample.crc16 InsertionRecord Sample.insertion_page (-1)
  = Raise (struct.error "unpack requires a string argument of length 15").
Proof.
  apply (Create_index_minus_one_raises Sample.crc16 InsertionRecord 15);
    reflexivity.
Defined.

Lemma Create_without_FORMAT_raises_witness :
  Create Sample.crc16 GenericTimestampedRecord Sample.insertion_page 0
  = Raise (NotImplementedError
             "Subclasses of GenericTimestampedRecord need to define FORMAT").
Proof.
  apply (Create_without_FORMAT_raises Sample.crc16 GenericTimestampedRecord).
  reflexivity.
Defined.

Lemma Calibration_short_page_decodes_witness :
  exists r,
    Create Sample.crc16 Calibration Sample.header_only_page 0 = Ok r
    /\ raw_data r = Sample.header_only_page.
Proof.
  refine (proj2 (proj1 (Calibration_short_page_decodes Sample.crc16 Calibration
                          249 Sample.header_only_page eq_refl eq_refl _ _)) _).
  - vm_compute. split; discriminate.
  - left. vm_compute. discriminate.
  - vm_compute. reflexivity.
Defined.

Lemma seconds_are_32_bit_witness :
  exists r,
    Sample.Create EventRecord Sample.event_page 0 = Ok r
    /\ exists s d,
        system_secs r = Ok (VInt s) /\ display_secs r = Ok (VInt d)
        /\ 0 <= s < 2 ^ 32 /\ 0 <= d < 2 ^ 32.
Proof.
  sample_record HC EventRecord Sample.event_page 0.
  exact (seconds_are_32_bit Sample.crc16 _ _ _ _ HC).
Defined.

Lemma Calibration_subrecord_limit_witness :
  exists r,
    Sample.Create LegacyCalibration Sample.legacy_page 0 = Ok r
    /\ (List.length (subcals r) <= 6)%nat.
Proof.
  sample_record HC LegacyCalibration Sample.legacy_page 0.
  exact (proj2 (Calibration_subrecord_limit Sample.crc16 _ _ _ _ HC) eq_refl).
Defined.

Lemma SubCal_displayOffset_is_display_secs_witness :
  exists r,
    Sample.Create LegacyCalibration Sample.legacy_page 0 = Ok r
    /\ forall s, In s (subcals r) -> display_secs r = Ok (SubCal.displayOffset s).
Proof.
  sample_record HC LegacyCalibration Sample.legacy_page 0.
  intros s Hs.
  exact (SubCal_displayOffset_is_display_secs Sample.crc16 LegacyCalibration
           _ _ _ s eq_refl HC Hs).
Defined.

Lemma xmldata_strips_nul_witness :
  exists r,
    Sample.Create GenericXMLRecord Sample.xml_page 0 = Ok r
    /\ xmldata r = Ok [Byte.x3c; Byte.x61; Byte.x3e].
Proof.
  sample_record HC GenericXMLRecord Sample.xml_page 0.
  destruct (xmldata_strips_nul Sample.crc16 _ _ _ HC) as (s & Hx & Hs & _).
  rewrite Hx, Hs. vm_compute. reflexivity.
Defined.

Lemma UserSettings_shared_layout_witness :
  exists r5 r6,
    Sample.Create G5UserSettings Sample.g5settings_page 0 = Ok r5
    /\ Sample.Create G6UserSettings Sample.g6settings_page 0 = Ok r6
    /\ highAlert r5 = highAlert r6.
Proof.
  eexists. eexists. split; [vm_compute; reflexivity|].
  split; [vm_compute; reflexivity|].
  match goal with
  | |- highAlert ?r5 = highAlert ?r6 =>
      assert (H5 : Create Sample.crc16 G5UserSettings Sample.g5settings_page 0
                   = Ok r5) by (vm_compute; reflexivity);
      assert (H6 : Create Sample.crc16 G6UserSettings Sample.g6settings_page 0
                   = Ok r6) by (vm_compute; reflexivity);
      assert (Heq : firstn 43 (raw_data r5) = firstn 43 (raw_data r6))
        by (vm_compute; reflexivity);
      exact (proj1 (proj2 (UserSettings_shared_layout Sample.crc16 _ _ _ _ _ _
                             H5 H6 Heq)))
  end.
Defined.

Lemma G5MeterRecord_to_dict_raises_witness :
  exists r,
    Sample.Create G5MeterRecord Sample.g5meter_page 0 = Ok r
    /\ Sample.to_dict r = Raise (AttributeError G5MeterRecord "meter_time").
Proof.
  sample_record HC G5MeterRecord Sample.g5meter_page 0.
  exact (G5MeterRecord_to_dict_raises Sample.crc16 _ _ _ _ _ _ _ _ _ HC).
Defined.

Lemma MeterRecord_to_dict_witness :
  exists r,
    Sample.Create MeterRecord Sample.meter_page 0 = Ok r
    /\ Sample.to_dict r
       = Ok [("system_time", OText "1"); ("display_time", OText "2");
             ("calib_gluc", OInt 100); ("meter_time", OText "5")].
Proof.
  sample_record HC MeterRecord Sample.meter_page 0.
  unfold Sample.to_dict.
  rewrite (MeterRecord_to_dict Sample.crc16 _ _ _ _ _ _ _ _ _ HC).
  vm_compute. reflexivity.
Defined.

Lemma SensorRecord_to_dict_witness :
  exists r,
    Sample.Create SensorRecord Sample.sensor_page 0 = Ok r
    /\ rssi r = Ok (VInt (-80)).
Proof.
  sample_record HC SensorRecord Sample.sensor_page 0.
  exact (proj1 (proj2 (SensorRecord_to_dict Sample.crc16 Sample.datetime
                         Sample.ReceiverTimeToTime Sample.isoformat
                         Sample.EGV_VALUE_MASK Sample.EGV_TREND_ARROW_MASK
                         Sample.TREND_ARROW_VALUES _ _ _ HC))).
Defined.

Lemma InsertionRecord_to_dict_witness :
  exists r,
    Sample.Create InsertionRecord Sample.insertion_page_state18 0 = Ok r
    /\ Sample.to_dict r = Raise (IndexError "list").
Proof.
  sample_record HC InsertionRecord Sample.insertion_page_state18 0.
  apply (proj1 (InsertionRecord_to_dict Sample.crc16 Sample.datetime
                  Sample.ReceiverTimeToTime Sample.isoformat
                  Sample.EGV_VALUE_MASK Sample.EGV_TREND_ARROW_MASK
                  Sample.TREND_ARROW_VALUES
                  InsertionRecord _ _ _ eq_refl HC)).
  vm_compute. discriminate.
Defined.

Lemma to_dict_base_fields_only_witness :
  exists r,
    Sample.Create G5UserSettings Sample.g5settings_page 0 = Ok r
    /\ Sample.to_dict r
       = Ok [("system_time", OText "0"); ("display_time", OText "0")].
Proof.
  sample_record HC G5UserSettings Sample.g5settings_page 0.
  unfold Sample.to_dict.
  rewrite (to_dict_base_fields_only Sample.crc16 _ _ _ _ _ _
             G5UserSettings _ _ _ (or_intror (or_introl eq_refl)) HC).
  vm_compute. reflexivity.
Defined.

Lemma EGV_to_dict_witness :
  exists r,
    Sample.Create EGVRecord Sample.egv_page 0 = Ok r
    /\ glucose Sample.EGV_VALUE_MASK r = Ok 100.
Proof.
  sample_record HC EGVRecord Sample.egv_page 0.
  refine (proj1 (EGV_to_dict Sample.crc16 Sample.datetime
                   Sample.ReceiverTimeToTime Sample.isoformat
                   Sample.EGV_VALUE_MASK Sample.EGV_TREND_ARROW_MASK
                   Sample.TREND_ARROW_VALUES
                   EGVRecord _ _ _ (or_introl eq_refl) HC _)).
  vm_compute. discriminate.
Defined.

Lemma event_value_by_category_witness :
  exists r,
    Sample.Create EventRecord Sample.event_page 0 = Ok r
    /\ uint_at (raw_data r) 14 4 = 250
    /\ event_value r = Ok (OFloat 0x4004000000000000).
Proof.
  sample_record HC EventRecord Sample.event_page 0.
  split; [vm_compute; reflexivity|].
  rewrite (proj1 (event_value_by_category Sample.crc16 _ _ _ HC));
    vm_compute; reflexivity.
Defined.

Lemma hexlify_injective_witness :
  [Byte.x0a; Byte.xff] = [Byte.x0a; Byte.xff]
  /\ String.length (hexlify [Byte.x0a; Byte.xff]) = 4%nat.
Proof.
  exact (hexlify_injective [Byte.x0a; Byte.xff] [Byte.x0a; Byte.xff] eq_refl).
Defined.
